(** * Laravel factory generator of devdb-vscode: the factory content generator

    A shallow embedding of the three pure operations of
    [LaravelFactoryGenerator] (services/laravel/factory-generator.ts):

    - [getFakerMethodForColumn]: classify one column into a generator
      expression;
    - [generateColumnDefinitions]: render the block of definitions;
    - the [content.replace(/return \[([\s\S]*?)\];/, ...)] call of
      [updateFactoryContent]: splice the block into the factory file.

    JavaScript strings are sequences of code units.  They are embedded as
    [string], one [ascii] per code unit, which covers the code units
    0..255 (the Latin-1 range); every string literal of the source is in
    that range.

    Two points of the language decide what the source does and are embedded
    as the language defines them: a property read on an object literal
    ([typeMap[type]]) also finds the properties inherited from
    [Object.prototype], and a string given to [replace] as the replacement
    is a template in which a dollar sign can start a substitution. *)

From Stdlib Require Import String Ascii List Bool Arith Lia.
Import ListNotations.
Open Scope string_scope.

(** ** JavaScript strings *)

Module JsString.

(** The line feed, written [\n] in the source. *)
Definition LF_unit : ascii := ascii_of_nat 10.
Definition LF : string := String LF_unit EmptyString.

(** [String.prototype.toLowerCase] on one code unit below 256: the Unicode
    lowercase mapping moves A-Z (65..90) and the Latin-1 capitals
    (192..222, the multiplication sign 215 apart) up by 32 and leaves every
    other code unit of the range alone. *)
Definition toLowerCase_unit (c : ascii) : ascii :=
  let n := nat_of_ascii c in
  if (((65 <=? n) && (n <=? 90))
      || ((192 <=? n) && (n <=? 222) && negb (n =? 215)))%nat
  then ascii_of_nat (n + 32)
  else c.

Fixpoint toLowerCase (s : string) : string :=
  match s with
  | EmptyString => EmptyString
  | String c s' => String (toLowerCase_unit c) (toLowerCase s')
  end.

(** [s.startsWith(p)], returning the rest of [s] after [p]. *)
Fixpoint strip_prefix (p s : string) : option string :=
  match p with
  | EmptyString => Some s
  | String a p' =>
      match s with
      | EmptyString => None
      | String b s' => if Ascii.eqb a b then strip_prefix p' s' else None
      end
  end.

Definition startsWith (s p : string) : bool :=
  match strip_prefix p s with Some _ => true | None => false end.

(** [s.includes(sub)]: [sub] occurs in [s] at some position, searched from
    the left. *)
Fixpoint includes (s sub : string) : bool :=
  startsWith s sub
  || match s with
     | EmptyString => false
     | String _ s' => includes s' sub
     end.

(** [Array.prototype.join] on an array of strings, as the loop of the
    language definition: the result starts empty, and every element after
    the first is preceded by the separator. *)
Fixpoint join_loop (sep : string) (k : nat) (R : string) (elements : list string)
  : string :=
  match elements with
  | [] => R
  | e :: rest =>
      let R1 := if (k =? 0)%nat then R else R ++ sep in
      join_loop sep (S k) (R1 ++ e) rest
  end.

Definition join (elements : list string) (sep : string) : string :=
  join_loop sep 0 EmptyString elements.

(** [s.split(sep)] for a separator of one code unit. *)
Fixpoint split_unit (sep : ascii) (s : string) : list string :=
  match s with
  | EmptyString => [EmptyString]
  | String c s' =>
      if Ascii.eqb c sep then EmptyString :: split_unit sep s'
      else match split_unit sep s' with
           | [] => [String c EmptyString]
           | piece :: pieces => String c piece :: pieces
           end
  end.

(** Occurrence of [sub] in [s], as a proposition. *)
Definition Contains (s sub : string) : Prop :=
  exists pre post, s = pre ++ sub ++ post.

End JsString.
Import JsString.

(** ** JavaScript values and objects *)

(** The values that reach [getFakerMethodForColumn]'s result: strings,
    [undefined], the built-in functions of [Object.prototype] (by name) and
    [Object.prototype] itself. *)
Inductive JsValue : Type :=
| JsUndefined
| JsStr (s : string)
| JsNativeFunction (fname : string)
| JsObjectPrototype.

(** [ToBoolean]: [undefined] and the empty string are falsy, objects are
    truthy. *)
Definition ToBoolean (v : JsValue) : bool :=
  match v with
  | JsUndefined => false
  | JsStr s => negb (String.eqb s EmptyString)
  | JsNativeFunction _ => true
  | JsObjectPrototype => true
  end.

(** [a || b]. *)
Definition js_or (a b : JsValue) : JsValue :=
  if ToBoolean a then a else b.

(** [ToString], as a template literal applies it to an interpolated value.
    A built-in function prints as V8 prints it. *)
Definition ToString (v : JsValue) : string :=
  match v with
  | JsUndefined => "undefined"
  | JsStr s => s
  | JsNativeFunction fname => "function " ++ fname ++ "() { [native code] }"
  | JsObjectPrototype => "[object Object]"
  end.

Definition isString (v : JsValue) : bool :=
  match v with JsStr _ => true | _ => false end.

(** Property tables: keys in insertion order. *)
Definition Properties : Type := list (string * JsValue).

Fixpoint own_property (props : Properties) (key : string) : option JsValue :=
  match props with
  | [] => None
  | (k, v) :: rest => if String.eqb k key then Some v else own_property rest key
  end.

(** The properties every object literal inherits from [Object.prototype].
    [__proto__] is an accessor; read through an object literal it yields
    [Object.prototype]. *)
Definition ObjectPrototype : Properties :=
  [ ("constructor", JsNativeFunction "Object");
    ("__defineGetter__", JsNativeFunction "__defineGetter__");
    ("__defineSetter__", JsNativeFunction "__defineSetter__");
    ("hasOwnProperty", JsNativeFunction "hasOwnProperty");
    ("__lookupGetter__", JsNativeFunction "__lookupGetter__");
    ("__lookupSetter__", JsNativeFunction "__lookupSetter__");
    ("isPrototypeOf", JsNativeFunction "isPrototypeOf");
    ("propertyIsEnumerable", JsNativeFunction "propertyIsEnumerable");
    ("toString", JsNativeFunction "toString");
    ("valueOf", JsNativeFunction "valueOf");
    ("__proto__", JsObjectPrototype);
    ("toLocaleString", JsNativeFunction "toLocaleString") ].

(** [obj[key]] on an object literal with the own properties [props]: the own
    property, else the inherited one, else [undefined]. *)
Definition get_property (props : Properties) (key : string) : JsValue :=
  match own_property props key with
  | Some v => v
  | None =>
      match own_property ObjectPrototype key with
      | Some v => v
      | None => JsUndefined
      end
  end.

(** ** The data model *)

(** [Column] of types.ts, with the two fields the generator reads. *)
Record Column : Type := mkColumn { name : string; type : string }.

(** ** Operation 1: [getFakerMethodForColumn] *)

Definition typeMap : Properties :=
  [ ("varchar", JsStr "$this->faker->text()");
    ("char", JsStr "$this->faker->text()");
    ("text", JsStr "$this->faker->paragraph()");
    ("integer", JsStr "$this->faker->numberBetween(1, 1000)");
    ("bigint", JsStr "$this->faker->numberBetween(1, 1000)");
    ("boolean", JsStr "$this->faker->boolean()");
    ("date", JsStr "$this->faker->date()");
    ("datetime", JsStr "$this->faker->dateTime()");
    ("timestamp", JsStr "$this->faker->dateTime()");
    ("decimal", JsStr "$this->faker->randomFloat(2, 0, 1000)");
    ("float", JsStr "$this->faker->randomFloat(2, 0, 1000)");
    ("json", JsStr "$this->faker->json()");
    ("uuid", JsStr "$this->faker->uuid()") ].

Definition getFakerMethodForColumn (column : Column) : JsValue :=
  let type := toLowerCase (type column) in
  let columnName := toLowerCase (name column) in
  if includes columnName "email" then JsStr "fake()->safeEmail()"
  else if includes columnName "name" then JsStr "fake()->name()"
  else if includes columnName "phone" then JsStr "fake()->phoneNumber()"
  else if includes columnName "address" then JsStr "fake()->address()"
  else js_or (get_property typeMap type) (JsStr "fake()->text()").

(** ** Operation 2: [generateColumnDefinitions] *)

(** The arrow function passed to [map]: one line of the block. *)
Definition renderColumn (column : Column) : string :=
  let fakerMethod := getFakerMethodForColumn column in
  "            '" ++ name column ++ "' => " ++ ToString fakerMethod ++ ",".

Definition generateColumnDefinitions (columns : list Column) : string :=
  join (map renderColumn columns) LF.

(** ** Operation 3: the [replace] call of [updateFactoryContent] *)

Module RegExp.

(** The result of a successful match of [/return \[([\s\S]*?)\];/]: the text
    before the match, the capture of group 1, and the text after the match.
    The matched text is the two literals around the capture. *)
Record MatchResult : Type :=
  mkMatch { before : string; capture : string; after : string }.

Definition matched (m : MatchResult) : string :=
  "return [" ++ capture m ++ "];".

(** [([\s\S]*?)\];] from the current position: the lazy quantifier first
    tries the rest of the pattern, and takes one more code unit (any code
    unit: [[\s\S]]) only when that fails.  Returns the capture and the text
    after the match. *)
Fixpoint match_lazy_body (s : string) : option (string * string) :=
  match strip_prefix "];" s with
  | Some rest => Some (EmptyString, rest)
  | None =>
      match s with
      | EmptyString => None
      | String c s' =>
          match match_lazy_body s' with
          | Some (body, rest) => Some (String c body, rest)
          | None => None
          end
      end
  end.

(** The whole pattern, anchored at the current position. *)
Definition match_here (s : string) : option (string * string) :=
  match strip_prefix "return [" s with
  | Some s1 => match_lazy_body s1
  | None => None
  end.

(** [RegExp.prototype.exec] without the global flag: the start positions are
    tried from the left, and the first one where the pattern matches wins. *)
Fixpoint exec (s : string) : option MatchResult :=
  match match_here s with
  | Some (body, rest) => Some (mkMatch EmptyString body rest)
  | None =>
      match s with
      | EmptyString => None
      | String c s' =>
          match exec s' with
          | Some m => Some (mkMatch (String c (before m)) (capture m) (after m))
          | None => None
          end
      end
  end.

Definition is_digit (c : ascii) : bool :=
  let n := nat_of_ascii c in ((48 <=? n) && (n <=? 57))%nat.

Definition digit_value (c : ascii) : nat := nat_of_ascii c - 48.

(** [GetSubstitution] of the language definition, for a pattern without
    named groups: in the replacement template, [$$] is a dollar sign, [$&]
    the matched text, [$`] the text before the match, [$'] the text after
    it, and [$n] or [$nn] the capture of that number when the pattern has
    such a group; every other code unit stands for itself. *)
Fixpoint GetSubstitution (m : MatchResult) (captures : list string)
  (template : string) : string :=
  match template with
  | EmptyString => EmptyString
  | String c rest =>
      if negb (Ascii.eqb c "$") then String c (GetSubstitution m captures rest)
      else
        match rest with
        | EmptyString => String c EmptyString
        | String d rest1 =>
            if Ascii.eqb d "$" then String "$" (GetSubstitution m captures rest1)
            else if Ascii.eqb d "`" then before m ++ GetSubstitution m captures rest1
            else if Ascii.eqb d "&" then matched m ++ GetSubstitution m captures rest1
            else if Ascii.eqb d "'" then after m ++ GetSubstitution m captures rest1
            else if is_digit d then
              let captureLen := List.length captures in
              let one_digit :=
                let index := digit_value d in
                if ((1 <=? index) && (index <=? captureLen))%nat
                then nth (index - 1) captures EmptyString
                       ++ GetSubstitution m captures rest1
                else String "$" (String d (GetSubstitution m captures rest1)) in
              match rest1 with
              | EmptyString => one_digit
              | String d2 rest2 =>
                  if is_digit d2 then
                    let index := 10 * digit_value d + digit_value d2 in
                    if (captureLen <? index)%nat then one_digit
                    else if (1 <=? index)%nat
                    then nth (index - 1) captures EmptyString
                           ++ GetSubstitution m captures rest2
                    else String "$" (String d (String d2
                           (GetSubstitution m captures rest2)))
                  else one_digit
              end
            else String "$" (GetSubstitution m captures rest)
        end
  end.

(** [s.replace(regexp, template)] for the pattern above and a string
    template: the first match is replaced by the substitution, and a string
    without a match is returned as it is. *)
Definition replace (s template : string) : string :=
  match exec s with
  | Some m => before m ++ GetSubstitution m [capture m] template ++ after m
  | None => s
  end.

End RegExp.

(** The replacement template built from the block of definitions. *)
Definition replacementTemplate (definitions : string) : string :=
  "return [" ++ LF ++ definitions ++ LF ++ "        ];".

(** The pure step of [updateFactoryContent]: [content.replace(...)]. *)
Definition spliceDefinitions (content definitions : string) : string :=
  RegExp.replace content (replacementTemplate definitions).

(** ** [updateFactoryContent] with its reads and writes *)

(** A promise settles with a value or is rejected with an error; the error
    is kept as the text [String(error)] gives for it. *)
Inductive Promise (A : Type) : Type :=
| Fulfilled (a : A)
| Rejected (error : string).
Arguments Fulfilled {A} a.
Arguments Rejected {A} error.

(** The files of the workspace, by path. *)
Definition FileSystem : Type := string -> option string.

(** An awaited call that may change the files: it leaves the files in some
    state whether it is fulfilled or rejected. *)
Definition Async (A : Type) : Type := FileSystem -> Promise A * FileSystem.

Definition bind {A B : Type} (p : Async A) (k : A -> Async B) : Async B :=
  fun fs =>
    match p fs with
    | (Fulfilled a, fs1) => k a fs1
    | (Rejected e, fs1) => (Rejected e, fs1)
    end.

Notation "'await' x <- p ; k" := (bind p (fun x => k))
  (at level 10, x name, p at level 100, k at level 200).

(** An awaited call that leaves the files as they are. *)
Definition reading {A : Type} (p : FileSystem -> Promise A) : Async A :=
  fun fs => (p fs, fs).

(** [fs/promises] of Node, with the two calls the generator makes.  Both may
    be rejected, and a write that is rejected may have changed the file. *)
Record FsPromises : Type :=
  mkFsPromises
    { readFile : string -> FileSystem -> Promise string;
      writeFile : string -> string -> Async unit }.

(** [DatabaseEngine] of types.ts, with the one method the generator calls. *)
Record DatabaseEngine : Type :=
  mkDatabaseEngine { getColumns : string -> Promise (list Column) }.

(** What [this.database!.getColumns] throws on a database that is null. *)
Definition nullDatabaseError : string :=
  "TypeError: Cannot read properties of null (reading 'getColumns')".

Definition updateFactoryContent (io : FsPromises)
  (database : option DatabaseEngine) (factoryPath tableName : string)
  : Async unit :=
  await content <- reading (readFile io factoryPath);
  await columns <-
    reading (fun _ =>
               match database with
               | Some db => getColumns db tableName
               | None => Rejected nullDatabaseError
               end);
  let definitions := generateColumnDefinitions columns in
  let updatedContent := spliceDefinitions content definitions in
  writeFile io factoryPath updatedContent.

(** ** Notions used in the statements *)

(** A column that no name heuristic matches. *)
Definition unmatched (column : Column) : Prop :=
  let columnName := toLowerCase (name column) in
  ~ Contains columnName "email" /\ ~ Contains columnName "name"
  /\ ~ Contains columnName "phone" /\ ~ Contains columnName "address".

Definition is_upper (c : ascii) : bool :=
  let n := nat_of_ascii c in ((65 <=? n) && (n <=? 90))%nat.

Fixpoint has_upper (s : string) : bool :=
  match s with
  | EmptyString => false
  | String c s' => is_upper c || has_upper s'
  end.

(** The generator expressions the source writes out: the four of the name
    heuristics, those of the type table, and the generic one. *)
Definition fixedExpressions : list string :=
  [ "fake()->safeEmail()"; "fake()->name()"; "fake()->phoneNumber()";
    "fake()->address()";
    "$this->faker->text()"; "$this->faker->paragraph()";
    "$this->faker->numberBetween(1, 1000)"; "$this->faker->boolean()";
    "$this->faker->date()"; "$this->faker->dateTime()";
    "$this->faker->randomFloat(2, 0, 1000)"; "$this->faker->json()";
    "$this->faker->uuid()"; "fake()->text()" ].

(** An occurrence of the pattern [return [ ... ];] in [content]: the text
    before it, the array body, and the text after it. *)
Definition Occurrence (content pre body post : string) : Prop :=
  content = pre ++ "return [" ++ body ++ "];" ++ post.

(** The first occurrence, with the shortest array body: no occurrence starts
    further left, and none that starts at the same place has a shorter
    body. *)
Definition FirstMatch (content pre body post : string) : Prop :=
  Occurrence content pre body post
  /\ forall pre' body' post',
       Occurrence content pre' body' post' ->
       String.length pre < String.length pre'
       \/ (String.length pre = String.length pre'
           /\ String.length body <= String.length body').

(** [u] is one of the code units of [s]. *)
Fixpoint has_unit (u : ascii) (s : string) : bool :=
  match s with
  | EmptyString => false
  | String c s' => Ascii.eqb c u || has_unit u s'
  end.

(** The code units that turn a preceding dollar sign of a replacement
    template into a substitution. *)
Definition substitution_unit (d : ascii) : bool :=
  Ascii.eqb d "$" || Ascii.eqb d "`" || Ascii.eqb d "&" || Ascii.eqb d "'"
  || RegExp.is_digit d.

(** A replacement template without substitutions: no dollar sign is followed
    by one of the code units above. *)
Fixpoint inert (template : string) : bool :=
  match template with
  | EmptyString => true
  | String c rest =>
      if Ascii.eqb c "$" then
        match rest with
        | EmptyString => true
        | String d _ => negb (substitution_unit d) && inert rest
        end
      else inert rest
  end.

(** The values the classifier can return: the expressions of the source and
    the two inherited objects a lowercased key can name. *)
Definition classifierRange : list JsValue :=
  (map JsStr fixedExpressions
     ++ [JsNativeFunction "Object"; JsObjectPrototype])%list.

(** The columns of [l] at the positions [idx], in the order of [idx]. *)
Definition reorder {A : Type} (idx : list nat) (l : list A) : list A :=
  flat_map (fun i => match nth_error l i with Some x => [x] | None => [] end) idx.


(** ** The workflow around the generator: [generateFactory] *)

(** [String.prototype.trim]: white space and line terminators are removed
    from both ends.  Below 256 these are the code units 9 to 13, the space
    and the no-break space. *)
Definition isWhiteSpace (c : ascii) : bool :=
  let n := nat_of_ascii c in
  (((9 <=? n) && (n <=? 13)) || (n =? 32) || (n =? 160))%nat.

Fixpoint trimStart (s : string) : string :=
  match s with
  | EmptyString => EmptyString
  | String c s' => if isWhiteSpace c then trimStart s' else s
  end.

Fixpoint trimEnd (s : string) : string :=
  match s with
  | EmptyString => EmptyString
  | String c s' =>
      match trimEnd s' with
      | EmptyString => if isWhiteSpace c then EmptyString else String c EmptyString
      | String d t => String c (String d t)
      end
  end.

Definition trim (s : string) : string := trimEnd (trimStart s).

Fixpoint all_white_space (s : string) : bool :=
  match s with
  | EmptyString => true
  | String c s' => isWhiteSpace c && all_white_space s'
  end.

(** A button of a notification: [{ title, id }]. *)
Record MessageItem : Type :=
  mkMessageItem { item_title : string; item_id : string }.

(** What the workflow does to the editor and the build tool, in the order in
    which it does it. *)
Inductive Event : Type :=
| ErrorMessageShown (message : string) (items : list string)
| WarningMessageShown (message : string) (items : list MessageItem)
| InformationMessageShown (message : string) (items : list MessageItem)
| MissingDatabaseNotificationShown
| ArtisanCommandRun (command : string) (args : list string)
| TextDocumentOpened (path : string)
| TextDocumentShown (path : string)
| CommandExecuted (command : string).

(** [ArtisanService]: running a command may change the files of the
    workspace. *)
Record ArtisanService : Type :=
  mkArtisanService { runCommand : string -> list string -> Async bool }.

(** The collaborators of the workflow that are not part of the generator:
    the editor ([vscode.workspace], [vscode.window]), the user who answers
    the notifications, the messenger, the code lens service and the
    notification service.  Each call may be rejected. *)
Record Host : Type :=
  mkHost
    { getWorkspaceTables : list string;
      ArtisanService_create : option ArtisanService;
      findFiles : string -> FileSystem -> Promise (list string);
      showWarningMessage :
        string -> list MessageItem -> Promise (option MessageItem);
      showInformationMessage :
        string -> list MessageItem -> Promise (option MessageItem);
      showMissingDatabaseNotification : Promise unit;
      getTable : string -> string -> FileSystem -> Promise (option string);
      openTextDocument : string -> FileSystem -> Promise unit;
      showTextDocument : string -> Promise unit }.

(** An asynchronous step: it reads and changes the files, settles with a
    value or is rejected, and leaves a trace of events. *)
Definition Task (A : Type) : Type :=
  FileSystem -> Promise A * FileSystem * list Event.

Definition Task_ret {A : Type} (a : A) : Task A :=
  fun fs => (Fulfilled a, fs, []).

Definition Task_bind {A B : Type} (t : Task A) (k : A -> Task B) : Task B :=
  fun fs =>
    match t fs with
    | (Fulfilled a, fs1, events1) =>
        match k a fs1 with
        | (r, fs2, events2) => (r, fs2, (events1 ++ events2)%list)
        end
    | (Rejected e, fs1, events1) => (Rejected e, fs1, events1)
    end.

Notation "'perform' x <- t ; k" := (Task_bind t (fun x => k))
  (at level 10, x name, t at level 100, k at level 200).

Definition emit (e : Event) : Task unit :=
  fun fs => (Fulfilled tt, fs, [e]).

(** A call that only reads the files. *)
Definition call {A : Type} (p : FileSystem -> Promise A) : Task A :=
  fun fs => (p fs, fs, []).

(** [try { t } catch (error) { handler }]. *)
Definition try_catch {A : Type} (t : Task A) (handler : string -> Task A)
  : Task A :=
  fun fs =>
    match t fs with
    | (Rejected e, fs1, events1) =>
        match handler e fs1 with
        | (r, fs2, events2) => (r, fs2, (events1 ++ events2)%list)
        end
    | settled => settled
    end.

(** A path or a table name as a condition: [undefined] and the empty string
    are falsy. *)
Definition truthy (v : option string) : option string :=
  match v with
  | Some s => if String.eqb s EmptyString then None else Some s
  | None => None
  end.

(** [isConnected]: the error message is shown and not awaited. *)
Definition isConnected (host : Host) (database : option DatabaseEngine)
  : Task bool :=
  let tables := getWorkspaceTables host in
  if match database with None => true | Some _ => false end
     || (List.length tables =? 0)%nat
  then
    perform shown <- emit (ErrorMessageShown
      "No database connection found. Please connect to a database before generating factory."
      ["Open DevDB"]);
    Task_ret false
  else Task_ret true.

(** The callback of that error message, run when the user answers it. *)
Definition isConnected_selection (selection : option string) : list Event :=
  match selection with
  | Some item =>
      if String.eqb item "Open DevDB" then [CommandExecuted "devdb.focus"]
      else []
  | None => []
  end.

(** [findFactoryFile]: [files[0]?.fsPath]. *)
Definition findFactoryFile (host : Host) (fileName : string)
  : Task (option string) :=
  perform files <- call (findFiles host ("**/database/factories/" ++ fileName));
  Task_ret (match files with [] => None | file :: _ => Some file end).

(** A call of the generator as a step of the workflow: it leaves no event
    of its own. *)
Definition lift {A : Type} (p : Async A) : Task A :=
  fun fs => match p fs with (r, fs1) => (r, fs1, []) end.

(** [artisan.runCommand(command, args)]. *)
Definition artisan_run (artisan : ArtisanService) (command : string)
  (args : list string) : Task bool :=
  fun fs =>
    match runCommand artisan command args fs with
    | (r, fs1) => (r, fs1, [ArtisanCommandRun command args])
    end.

Definition has_id (action : option MessageItem) (id : string) : bool :=
  match action with
  | Some item => String.eqb (item_id item) id
  | None => false
  end.

Definition openAndShow (host : Host) (path : string) : Task unit :=
  perform document <- call (openTextDocument host path);
  perform opened <- emit (TextDocumentOpened path);
  perform shown <- call (fun _ => showTextDocument host path);
  emit (TextDocumentShown path).

(** [generateFactory].  A [return] in the middle of the source is the
    branch that ends with [Task_ret tt] or with a single step; the check for
    an existing factory yields whether the workflow goes on. *)
Definition generateFactory (host : Host) (io : FsPromises)
  (database : option DatabaseEngine) (modelName modelFilePath : string)
  : Task unit :=
  if String.eqb (trim modelName) EmptyString then
    emit (ErrorMessageShown "Please provide a model name." [])
  else
    perform connected <- isConnected host database;
    if negb connected then
      perform shown <- emit MissingDatabaseNotificationShown;
      call (fun _ => showMissingDatabaseNotification host)
    else
      match ArtisanService_create host with
      | None => Task_ret tt
      | Some artisan =>
          let factoryName := modelName ++ "Factory" in
          let factoryFileName := factoryName ++ ".php" in
          perform existingFactoryPath <- findFactoryFile host factoryFileName;
          perform goes_on <-
            match truthy existingFactoryPath with
            | Some existing =>
                let items := [ mkMessageItem "Open Existing" "open";
                               mkMessageItem "Overwrite" "overwrite" ] in
                let message := "Factory " ++ factoryName ++ " already exists" in
                perform shown <- emit (WarningMessageShown message items);
                perform action <- call (fun _ => showWarningMessage host message items);
                if has_id action "open" then
                  perform opened <- openAndShow host existing;
                  Task_ret false
                else if negb (has_id action "overwrite") then Task_ret false
                else Task_ret true
            | None => Task_ret true
            end;
          if negb goes_on then Task_ret tt
          else
            perform ok <- artisan_run artisan "make:factory" [factoryName];
            if negb ok then Task_ret tt
            else
              perform factoryPath <- findFactoryFile host factoryFileName;
              match truthy factoryPath with
              | None =>
                  emit (ErrorMessageShown
                    "Factory file not found after creation. Make sure your Laravel project structure is correct."
                    [])
              | Some factoryPath =>
                  perform tableNameForModel <-
                    call (getTable host modelFilePath modelName);
                  match truthy tableNameForModel with
                  | None =>
                      emit (ErrorMessageShown
                        ("Could not determine table name for model " ++ modelName)
                        [])
                  | Some tableNameForModel =>
                      try_catch
                        (perform updated <-
                           lift (updateFactoryContent io database factoryPath
                                   tableNameForModel);
                         let items := [mkMessageItem "Open Factory" "open"] in
                         let message := "Created factory " ++ factoryName in
                         perform shown <- emit (InformationMessageShown message items);
                         perform action <-
                           call (fun _ => showInformationMessage host message items);
                         if has_id action "open" then openAndShow host factoryPath
                         else Task_ret tt)
                        (fun error =>
                           emit (ErrorMessageShown
                             ("Failed to update factory content: " ++ error) []))
                  end
              end
      end.

(** ** A sample workspace *)

(** A Laravel project under [/app] whose build tool writes the skeleton of
    a factory, with one table [users]. *)
Definition sampleSkeleton : string :=
  "<?php class F { public function definition(): array { return ["
    ++ LF ++ "            //" ++ LF ++ "        ]; } }".

(** Files that can be read when they are there and written at will, with
    the error text of Node for a missing file. *)
Definition sampleFs : FsPromises :=
  mkFsPromises
    (fun path fs =>
       match fs path with
       | Some content => Fulfilled content
       | None =>
           Rejected ("Error: ENOENT: no such file or directory, open '"
                       ++ path ++ "'")
       end)
    (fun path content fs =>
       (Fulfilled tt,
        fun p => if String.eqb p path then Some content else fs p)).

(** Files on a full disk: a write is rejected and leaves the file empty. *)
Definition fullDiskFs : FsPromises :=
  mkFsPromises
    (readFile sampleFs)
    (fun path content fs =>
       (Rejected "Error: ENOSPC: no space left on device, write",
        fun p => if String.eqb p path then Some EmptyString else fs p)).

Definition sampleArtisan : ArtisanService :=
  mkArtisanService
    (fun command args fs =>
       match args with
       | [factoryName] =>
           if String.eqb command "make:factory" then
             (Fulfilled true,
              fun path =>
                if String.eqb path
                     ("/app/database/factories/" ++ factoryName ++ ".php")
                then Some sampleSkeleton else fs path)
           else (Fulfilled false, fs)
       | _ => (Fulfilled false, fs)
       end).

Definition sampleHost (answer : option MessageItem) : Host :=
  mkHost
    ["users"]
    (Some sampleArtisan)
    (fun pattern fs =>
       match strip_prefix "**/" pattern with
       | Some relative =>
           match fs ("/app/" ++ relative) with
           | Some _ => Fulfilled ["/app/" ++ relative]
           | None => Fulfilled []
           end
       | None => Fulfilled []
       end)
    (fun _ _ => Fulfilled answer)
    (fun _ _ => Fulfilled answer)
    (Fulfilled tt)
    (fun _ modelName _ =>
       if String.eqb modelName "User" then Fulfilled (Some "users")
       else Fulfilled None)
    (fun path fs =>
       match fs path with
       | Some _ => Fulfilled tt
       | None => Rejected "cannot open"
       end)
    (fun _ => Fulfilled tt).

Definition sampleDatabase : DatabaseEngine :=
  mkDatabaseEngine
    (fun tableName =>
       if String.eqb tableName "users"
       then Fulfilled [mkColumn "email" "varchar"; mkColumn "age" "integer"]
       else Rejected "no such table").

Definition emptyFileSystem : FileSystem := fun _ => None.

(** A text without [];]: no closing bracket is followed by a semicolon. *)
Fixpoint close_free (s : string) : bool :=
  match s with
  | EmptyString => true
  | String c rest =>
      if Ascii.eqb c "]" then
        match rest with
        | EmptyString => true
        | String d _ => negb (Ascii.eqb d ";") && close_free rest
        end
      else close_free rest
  end.

(** The first code unit of [s] is not [u]. *)
Definition not_headed_by (u : ascii) (s : string) : bool :=
  match s with
  | EmptyString => true
  | String d _ => negb (Ascii.eqb d u)
  end.

(** The name of the factory of a model and the pattern under which
    [generateFactory] looks for its file. *)
Definition factoryNameOf (modelName : string) : string := modelName ++ "Factory".

Definition factoryPatternOf (modelName : string) : string :=
  "**/database/factories/" ++ factoryNameOf modelName ++ ".php".

(** The notifications of [generateFactory] about an existing and about a
    created factory. *)
Definition existsMessage (modelName : string) : string :=
  "Factory " ++ factoryNameOf modelName ++ " already exists".

Definition existsItems : list MessageItem :=
  [mkMessageItem "Open Existing" "open"; mkMessageItem "Overwrite" "overwrite"].

Definition createdMessage (modelName : string) : string :=
  "Created factory " ++ factoryNameOf modelName.

Definition createdItems : list MessageItem := [mkMessageItem "Open Factory" "open"].

Definition notConnectedMessage : string :=
  "No database connection found. Please connect to a database before generating factory.".

(** The workflow in the sample workspace without a factory file, for the
    model [User], with a user who closes the notifications. *)
Definition sampleOutcome : Promise unit * FileSystem * list Event :=
  generateFactory (sampleHost None) sampleFs (Some sampleDatabase) "User"
    "app/Models/User.php" emptyFileSystem.

(** The sample workspace after [make:factory UserFactory]. *)
Definition sampleMade : FileSystem :=
  snd (runCommand sampleArtisan "make:factory" ["UserFactory"] emptyFileSystem).

(** The sample workspace with a factory, after the user chose to overwrite
    it on a full disk: the build tool has written the skeleton again and the
    failed write of the update has emptied the file. *)
Definition sampleTruncated : FileSystem :=
  snd (updateFactoryContent fullDiskFs (Some sampleDatabase)
         "/app/database/factories/UserFactory.php" "users"
         (snd (runCommand sampleArtisan "make:factory" ["UserFactory"]
                 sampleMade))).


(** The lines of a text: the pieces between its line feeds.  The empty text
    has no line. *)
Definition text_lines (text : string) : list string :=
  match text with
  | EmptyString => []
  | String _ _ => split_unit LF_unit text
  end.

(** The check for an existing factory lets the workflow go on: no factory
    file is found, or one is found and the user answers the warning with the
    item [overwrite].  [shown] is what the check has shown by then. *)
Inductive GoesOn (host : Host) (modelName : string) (fs : FileSystem)
  : list Event -> Prop :=
| goes_on_new (files : list string) :
    findFiles host (factoryPatternOf modelName) fs = Fulfilled files ->
    truthy (hd_error files) = None ->
    GoesOn host modelName fs []
| goes_on_overwrite (files : list string) (existing : string)
    (item : MessageItem) :
    findFiles host (factoryPatternOf modelName) fs = Fulfilled files ->
    truthy (hd_error files) = Some existing ->
    showWarningMessage host (existsMessage modelName) existsItems
    = Fulfilled (Some item) ->
    item_id item = "overwrite" ->
    GoesOn host modelName fs
      [WarningMessageShown (existsMessage modelName) existsItems].
(** * Properties *)

(** ** Strings *)

Section StringFacts.

Lemma append_nil_r (s : string) : s ++ EmptyString = s.
Proof. induction s as [|c s IH]; simpl; [reflexivity | now rewrite IH]. Qed.

Lemma append_assoc (a b c : string) : (a ++ b) ++ c = a ++ b ++ c.
Proof. induction a as [|x a IH]; simpl; [reflexivity | now rewrite IH]. Qed.

Lemma append_length (a b : string) :
  String.length (a ++ b) = String.length a + String.length b.
Proof. induction a as [|x a IH]; simpl; [reflexivity | now rewrite IH]. Qed.

(** Two splits of one string at the same position are the same split. *)
Lemma append_eq_same_length (a a' b b' : string) :
  a ++ b = a' ++ b' -> String.length a = String.length a' -> a = a' /\ b = b'.
Proof.
  revert a'. induction a as [|x a IH]; intros [|y a'] E L; simpl in *;
    try discriminate.
  - now split.
  - injection E as -> E. injection L as L.
    destruct (IH _ E L) as [-> ->]. now split.
Qed.

Lemma append_inv_head (a b b' : string) : a ++ b = a ++ b' -> b = b'.
Proof.
  intros E. now destruct (append_eq_same_length a a b b' E eq_refl).
Qed.

Lemma strip_prefix_Some (p s r : string) :
  strip_prefix p s = Some r <-> s = p ++ r.
Proof.
  revert s. induction p as [|a p IH]; intros s; simpl.
  - split; [now intros [= ->] | now intros ->].
  - destruct s as [|b s]; [split; discriminate|].
    destruct (Ascii.eqb a b) eqn:E.
    + apply Ascii.eqb_eq in E as ->. rewrite IH. split.
      * now intros ->.
      * now intros [= ->].
    + split; [discriminate|]. intros [= <- _].
      now rewrite Ascii.eqb_refl in E.
Qed.

Lemma strip_prefix_append (p r : string) : strip_prefix p (p ++ r) = Some r.
Proof. now apply strip_prefix_Some. Qed.

Lemma includes_startsWith (s sub : string) :
  startsWith s sub = true -> includes s sub = true.
Proof. destruct s; simpl; now intros ->. Qed.

(** [includes] decides occurrence. *)
Lemma includes_Contains (s sub : string) :
  includes s sub = true <-> Contains s sub.
Proof.
  split.
  - induction s as [|c s IH]; simpl; unfold startsWith;
      destruct (strip_prefix sub _) as [r|] eqn:E; simpl; try discriminate.
    + intros _. apply strip_prefix_Some in E. now exists EmptyString, r.
    + intros _. apply strip_prefix_Some in E. now exists EmptyString, r.
    + intros H. destruct (IH H) as (pre & post & ->).
      now exists (String c pre), post.
  - intros (pre & post & ->). induction pre as [|c pre IH]; simpl.
    + apply includes_startsWith. unfold startsWith.
      now rewrite strip_prefix_append.
    + rewrite IH. apply orb_true_r.
Qed.

Lemma includes_false (s sub : string) :
  includes s sub = false <-> ~ Contains s sub.
Proof.
  rewrite <- includes_Contains. destruct (includes s sub); split; intros;
    congruence.
Qed.

End StringFacts.

(** ** Operation 1 *)

(** C1. The name heuristics are applied first-match-wins in the order email,
    name, phone, address on the lowercased column name, whatever the declared
    type: a name containing "email" gives the safe-email expression; failing
    that, "name" gives the person-name expression; failing both, "phone"
    gives the phone-number expression; failing all three, "address" gives the
    address expression. *)
Theorem name_heuristics_first_match_wins (column : Column) :
  let columnName := toLowerCase (name column) in
  (Contains columnName "email" ->
   getFakerMethodForColumn column = JsStr "fake()->safeEmail()")
  /\ (~ Contains columnName "email" -> Contains columnName "name" ->
      getFakerMethodForColumn column = JsStr "fake()->name()")
  /\ (~ Contains columnName "email" -> ~ Contains columnName "name" ->
      Contains columnName "phone" ->
      getFakerMethodForColumn column = JsStr "fake()->phoneNumber()")
  /\ (~ Contains columnName "email" -> ~ Contains columnName "name" ->
      ~ Contains columnName "phone" -> Contains columnName "address" ->
      getFakerMethodForColumn column = JsStr "fake()->address()").
Proof.
  intros columnName. unfold getFakerMethodForColumn. fold columnName.
  repeat split; intros;
    repeat match goal with
    | H : Contains _ _ |- _ => apply includes_Contains in H; rewrite H
    | H : ~ Contains _ _ |- _ => apply includes_false in H; rewrite H
    end; reflexivity.
Qed.

Lemma name_heuristics_first_match_wins_witness :
  getFakerMethodForColumn (mkColumn "Email_Name" "integer")
    = JsStr "fake()->safeEmail()"
  /\ getFakerMethodForColumn (mkColumn "user_name" "integer")
     = JsStr "fake()->name()"
  /\ getFakerMethodForColumn (mkColumn "PHONE_address" "integer")
     = JsStr "fake()->phoneNumber()"
  /\ getFakerMethodForColumn (mkColumn "home_address" "integer")
     = JsStr "fake()->address()".
Proof.
  split; [|split; [|split]].
  - apply (proj1 (name_heuristics_first_match_wins (mkColumn "Email_Name" "integer"))).
    apply includes_Contains. reflexivity.
  - apply (proj1 (proj2 (name_heuristics_first_match_wins (mkColumn "user_name" "integer"))));
      [apply includes_false | apply includes_Contains]; reflexivity.
  - apply (proj1 (proj2 (proj2
      (name_heuristics_first_match_wins (mkColumn "PHONE_address" "integer")))));
      [apply includes_false | apply includes_false | apply includes_Contains];
      reflexivity.
  - apply (proj2 (proj2 (proj2
      (name_heuristics_first_match_wins (mkColumn "home_address" "integer")))));
      [apply includes_false | apply includes_false | apply includes_false
      | apply includes_Contains]; reflexivity.
Defined.

Section TypeLookup.

Lemma toLowerCase_unit_not_upper (c : ascii) :
  is_upper (toLowerCase_unit c) = false.
Proof. destruct c as [[] [] [] [] [] [] [] []]; reflexivity. Qed.

Lemma toLowerCase_no_upper (s : string) : has_upper (toLowerCase s) = false.
Proof.
  induction s as [|c s IH]; simpl; [reflexivity|].
  now rewrite toLowerCase_unit_not_upper, IH.
Qed.

Lemma own_property_In (props : Properties) (key : string) (v : JsValue) :
  own_property props key = Some v -> In (key, v) props.
Proof.
  induction props as [|[k w] props IH]; simpl; [discriminate|].
  destruct (String.eqb_spec k key) as [->|_].
  - intros [= ->]. now left.
  - intros H. right. now apply IH.
Qed.

Lemma own_property_None (props : Properties) (key : string) :
  own_property props key = None <-> ~ In key (map fst props).
Proof.
  induction props as [|[k w] props IH]; simpl; [tauto|].
  destruct (String.eqb_spec k key) as [->|N].
  - split; [discriminate | tauto].
  - rewrite IH. tauto.
Qed.

(** Of the properties inherited from [Object.prototype], a lowercased key
    can only name [constructor] and [__proto__]: every other name has a
    capital letter. *)
Lemma inherited_property_lowercase (key : string) :
  has_upper key = false ->
  own_property ObjectPrototype key =
    if String.eqb key "constructor" then Some (JsNativeFunction "Object")
    else if String.eqb key "__proto__" then Some JsObjectPrototype
    else None.
Proof.
  intros U. unfold ObjectPrototype, own_property.
  repeat match goal with
  | |- context [String.eqb ?k key] =>
      destruct (String.eqb_spec k key) as [<-|?]; [try discriminate U|]
  end.
  - reflexivity.
  - reflexivity.
  - destruct (String.eqb_spec key "constructor"); [congruence|].
    destruct (String.eqb_spec key "__proto__"); [congruence|].
    reflexivity.
Qed.

(** Every entry of the type table is a non-empty string. *)
Lemma typeMap_entries_truthy (key : string) (v : JsValue) :
  own_property typeMap key = Some v -> ToBoolean v = true /\ isString v = true.
Proof.
  intros H. apply own_property_In in H. unfold typeMap in H. simpl in H.
  repeat (destruct H as [[= <- <-]|H]; [now split|]). contradiction.
Qed.

Lemma unmatched_type_lookup (column : Column) :
  unmatched column ->
  getFakerMethodForColumn column
  = js_or (get_property typeMap (toLowerCase (type column)))
          (JsStr "fake()->text()").
Proof.
  intros (E & N & P & A). unfold getFakerMethodForColumn.
  apply includes_false in E, N, P, A. now rewrite E, N, P, A.
Qed.

(** The table entry of a type that is a key of the table. *)
Lemma unmatched_type_entry (column : Column) (v : JsValue) :
  unmatched column ->
  own_property typeMap (toLowerCase (type column)) = Some v ->
  getFakerMethodForColumn column = v.
Proof.
  intros U H. rewrite (unmatched_type_lookup _ U).
  unfold get_property, js_or. rewrite H.
  now destruct (typeMap_entries_truthy _ _ H) as [-> _].
Qed.

(** The generic expression of a type that is neither a key of the table nor
    the name of an inherited property. *)
Lemma unmatched_type_fallback (column : Column) :
  unmatched column ->
  ~ In (toLowerCase (type column)) (map fst typeMap) ->
  toLowerCase (type column) <> "constructor" ->
  toLowerCase (type column) <> "__proto__" ->
  getFakerMethodForColumn column = JsStr "fake()->text()".
Proof.
  intros U K C P. rewrite (unmatched_type_lookup _ U).
  unfold get_property. apply own_property_None in K. rewrite K.
  rewrite (inherited_property_lowercase _ (toLowerCase_no_upper _)).
  destruct (String.eqb_spec (toLowerCase (type column)) "constructor");
    [contradiction|].
  destruct (String.eqb_spec (toLowerCase (type column)) "__proto__");
    [contradiction|].
  reflexivity.
Qed.

End TypeLookup.

Ltac solve_unmatched :=
  unfold unmatched; cbv zeta;
  repeat match goal with
  | |- _ /\ _ => split
  | |- ~ Contains _ _ => apply includes_false; vm_compute; reflexivity
  end.

Ltac solve_not_key := simpl; intuition discriminate.

Section Classifier.

(** For columns that no name heuristic matches, the result depends on the
    lowercased type alone. *)
Lemma unmatched_depends_on_type_only (c1 c2 : Column) :
  unmatched c1 -> unmatched c2 ->
  toLowerCase (type c1) = toLowerCase (type c2) ->
  getFakerMethodForColumn c1 = getFakerMethodForColumn c2.
Proof.
  intros U1 U2 E.
  now rewrite (unmatched_type_lookup _ U1), (unmatched_type_lookup _ U2), E.
Qed.

(** The static table, entry by entry. *)
Lemma typeMap_table (column : Column) :
  unmatched column ->
  let t := toLowerCase (type column) in
  let result := getFakerMethodForColumn column in
  (t = "varchar" -> result = JsStr "$this->faker->text()")
  /\ (t = "char" -> result = JsStr "$this->faker->text()")
  /\ (t = "text" -> result = JsStr "$this->faker->paragraph()")
  /\ (t = "integer" -> result = JsStr "$this->faker->numberBetween(1, 1000)")
  /\ (t = "bigint" -> result = JsStr "$this->faker->numberBetween(1, 1000)")
  /\ (t = "boolean" -> result = JsStr "$this->faker->boolean()")
  /\ (t = "date" -> result = JsStr "$this->faker->date()")
  /\ (t = "datetime" -> result = JsStr "$this->faker->dateTime()")
  /\ (t = "timestamp" -> result = JsStr "$this->faker->dateTime()")
  /\ (t = "decimal" -> result = JsStr "$this->faker->randomFloat(2, 0, 1000)")
  /\ (t = "float" -> result = JsStr "$this->faker->randomFloat(2, 0, 1000)")
  /\ (t = "json" -> result = JsStr "$this->faker->json()")
  /\ (t = "uuid" -> result = JsStr "$this->faker->uuid()").
Proof.
  intros U t result.
  repeat split; intros E; subst result; apply (unmatched_type_entry _ _ U);
    fold t; rewrite E; reflexivity.
Qed.

(** The two scenarios of the type lookup: an integer column and a column of
    a type the table does not have. *)
Lemma type_lookup_scenarios :
  getFakerMethodForColumn (mkColumn "age" "integer")
    = JsStr "$this->faker->numberBetween(1, 1000)"
  /\ getFakerMethodForColumn (mkColumn "widget_count" "smallint")
     = JsStr "fake()->text()"
  /\ getFakerMethodForColumn (mkColumn "bio" "text")
     = JsStr "$this->faker->paragraph()".
Proof. now vm_compute. Qed.

End Classifier.

(** C2. The type lookup reads [typeMap[type]], and an object literal answers
    for the properties it inherits as well: for the type [constructor], which
    is not a key of the table and belongs to a column that no name heuristic
    matches, the classifier returns the built-in function [Object], not the
    generic text expression, and the rendered line carries the text of that
    function. *)
Theorem type_lookup_reads_inherited_property :
  let column := mkColumn "kind" "constructor" in
  unmatched column
  /\ ~ In (toLowerCase (type column)) (map fst typeMap)
  /\ getFakerMethodForColumn column = JsNativeFunction "Object"
  /\ getFakerMethodForColumn column <> JsStr "fake()->text()"
  /\ renderColumn column
     = "            'kind' => function Object() { [native code] },".
Proof.
  cbv zeta. split; [solve_unmatched|].
  split; [solve_not_key|].
  split; [reflexivity|]. split; [discriminate | reflexivity].
Qed.

(** C7. The classifier's result is not always a string: for the types
    [constructor] and [__proto__] it is an object inherited from
    [Object.prototype], which the renderer then turns into text. *)
Theorem classifier_result_not_always_string :
  isString (getFakerMethodForColumn (mkColumn "kind" "Constructor")) = false
  /\ isString (getFakerMethodForColumn (mkColumn "kind" "__proto__")) = false
  /\ generateColumnDefinitions
       [mkColumn "kind" "Constructor"; mkColumn "kind" "__proto__"]
     = "            'kind' => function Object() { [native code] },"
       ++ LF ++ "            'kind' => [object Object],".
Proof. now vm_compute. Qed.

(** The classifier returns a string for every column whose lowercased type
    is neither [constructor] nor [__proto__], and the string is one of the
    expressions of the source. *)
Lemma classifier_fixed_expression (column : Column) :
  toLowerCase (type column) <> "constructor" ->
  toLowerCase (type column) <> "__proto__" ->
  exists expr, In expr fixedExpressions
               /\ getFakerMethodForColumn column = JsStr expr.
Proof.
  intros C P. unfold getFakerMethodForColumn.
  destruct (includes _ "email"); [eexists; split; [|reflexivity]; simpl; tauto|].
  destruct (includes _ "name"); [eexists; split; [|reflexivity]; simpl; tauto|].
  destruct (includes _ "phone"); [eexists; split; [|reflexivity]; simpl; tauto|].
  destruct (includes _ "address"); [eexists; split; [|reflexivity]; simpl; tauto|].
  unfold get_property.
  destruct (own_property typeMap _) as [v|] eqn:E.
  - destruct (typeMap_entries_truthy _ _ E) as [T _].
    unfold js_or. rewrite T. apply own_property_In in E.
    unfold typeMap in E. simpl in E.
    repeat (destruct E as [[= _ <-]|E];
            [eexists; split; [|reflexivity]; simpl; tauto|]).
    contradiction.
  - rewrite (inherited_property_lowercase _ (toLowerCase_no_upper _)).
    destruct (String.eqb_spec (toLowerCase (type column)) "constructor");
      [contradiction|].
    destruct (String.eqb_spec (toLowerCase (type column)) "__proto__");
      [contradiction|].
    eexists; split; [|reflexivity]. simpl; tauto.
Qed.

(** C9 as the claim words it fails on a type that contains one key of the
    table and is another: [datetime] contains [date] without equalling it,
    and the classifier returns the entry of [datetime]. *)
Lemma contained_key_counterexample :
  let column := mkColumn "created" "datetime" in
  let t := toLowerCase (type column) in
  unmatched column
  /\ In "date" (map fst typeMap)
  /\ Contains t "date"
  /\ t <> "date"
  /\ getFakerMethodForColumn column = JsStr "$this->faker->dateTime()"
  /\ getFakerMethodForColumn column <> JsStr "fake()->text()".
Proof.
  cbv zeta. split; [solve_unmatched|].
  split; [simpl; tauto|].
  split; [apply includes_Contains; reflexivity|].
  split; [discriminate|]. split; [reflexivity | discriminate].
Qed.

(** C9, amended. The type lookup is exact equality on the lowercased type:
    for a column that no name heuristic matches, a lowercased type that
    contains a key of the table and is itself no key of the table gives the
    generic text expression. *)
Theorem type_lookup_is_exact (column : Column) (key : string) :
  unmatched column ->
  In key (map fst typeMap) ->
  Contains (toLowerCase (type column)) key ->
  ~ In (toLowerCase (type column)) (map fst typeMap) ->
  getFakerMethodForColumn column = JsStr "fake()->text()".
Proof.
  intros U K C N. apply unmatched_type_fallback; trivial.
  - intros E. rewrite E in C. apply includes_Contains in C.
    simpl in K.
    repeat (destruct K as [<-|K]; [vm_compute in C; discriminate C|]).
    contradiction.
  - intros E. rewrite E in C. apply includes_Contains in C.
    simpl in K.
    repeat (destruct K as [<-|K]; [vm_compute in C; discriminate C|]).
    contradiction.
Qed.

Lemma type_lookup_is_exact_witness :
  getFakerMethodForColumn (mkColumn "title" "VARCHAR(255)")
    = JsStr "fake()->text()"
  /\ getFakerMethodForColumn (mkColumn "total" "unsigned bigint")
     = JsStr "fake()->text()".
Proof.
  split.
  - apply (type_lookup_is_exact (mkColumn "title" "VARCHAR(255)") "varchar").
    + solve_unmatched.
    + simpl; tauto.
    + apply includes_Contains. reflexivity.
    + solve_not_key.
  - apply (type_lookup_is_exact (mkColumn "total" "unsigned bigint") "bigint").
    + solve_unmatched.
    + simpl; tauto.
    + apply includes_Contains. reflexivity.
    + solve_not_key.
Defined.

(** ** The pattern [/return \[([\s\S]*?)\];/] *)

Section Pattern.

Import RegExp.

Lemma match_lazy_body_eq (s : string) :
  match_lazy_body s =
  match strip_prefix "];" s with
  | Some rest => Some (EmptyString, rest)
  | None =>
      match s with
      | EmptyString => None
      | String c s' =>
          match match_lazy_body s' with
          | Some (body, rest) => Some (String c body, rest)
          | None => None
          end
      end
  end.
Proof. destruct s; reflexivity. Qed.

Lemma exec_eq (s : string) :
  exec s =
  match match_here s with
  | Some (body, rest) => Some (mkMatch EmptyString body rest)
  | None =>
      match s with
      | EmptyString => None
      | String c s' =>
          match exec s' with
          | Some m => Some (mkMatch (String c (before m)) (capture m) (after m))
          | None => None
          end
      end
  end.
Proof. destruct s; reflexivity. Qed.

(** The lazy body stops at the first [];]: what it returns is a split of the
    text around a [];] ... *)
Lemma match_lazy_body_sound (s body rest : string) :
  match_lazy_body s = Some (body, rest) -> s = body ++ "];" ++ rest.
Proof.
  revert body rest. induction s as [|c s IH]; intros body rest;
    rewrite match_lazy_body_eq;
    destruct (strip_prefix "];" _) as [r|] eqn:P.
  - discriminate P.
  - discriminate.
  - intros [= <- <-]. now apply strip_prefix_Some in P.
  - destruct (match_lazy_body s) as [[b r]|]; [|discriminate].
    intros [= <- <-]. simpl. f_equal. now apply IH.
Qed.

(** ... no split around a [];] has a shorter body ... *)
Lemma match_lazy_body_shortest (s body rest : string) :
  match_lazy_body s = Some (body, rest) ->
  forall body' rest', s = body' ++ "];" ++ rest' ->
  String.length body <= String.length body'.
Proof.
  revert body rest. induction s as [|c s IH]; intros body rest;
    rewrite match_lazy_body_eq;
    destruct (strip_prefix "];" _) as [r|] eqn:P.
  - discriminate P.
  - discriminate.
  - intros [= <- <-] body' rest' _. simpl. lia.
  - destruct (match_lazy_body s) as [[b r]|] eqn:M; [|discriminate].
    intros [= <- <-] body' rest' E.
    destruct body' as [|c' body'].
    + simpl in E. rewrite E in P. discriminate P.
    + simpl in E. injection E as _ E. simpl.
      apply le_n_S. now apply (IH b r eq_refl body' rest').
Qed.

(** ... and it fails only on a text without [];]. *)
Lemma match_lazy_body_complete (s : string) :
  match_lazy_body s = None ->
  forall body rest, s <> body ++ "];" ++ rest.
Proof.
  induction s as [|c s IH]; rewrite match_lazy_body_eq;
    destruct (strip_prefix "];" _) as [r|] eqn:P; try discriminate.
  - intros _ [|c b] rest; discriminate.
  - destruct (match_lazy_body s) as [[b r]|] eqn:M; [discriminate|].
    intros _ [|c' body] rest E.
    + simpl in E. rewrite E in P. discriminate P.
    + simpl in E. injection E as _ E. now apply (IH eq_refl body rest).
Qed.

Lemma match_here_Some (s body rest : string) :
  match_here s = Some (body, rest) -> Occurrence s EmptyString body rest.
Proof.
  unfold match_here, Occurrence.
  destruct (strip_prefix "return [" s) as [s1|] eqn:P; [|discriminate].
  apply strip_prefix_Some in P. intros M.
  apply match_lazy_body_sound in M. now rewrite P, M.
Qed.

Lemma match_here_shortest (s body rest : string) :
  match_here s = Some (body, rest) ->
  forall body' rest', Occurrence s EmptyString body' rest' ->
  String.length body <= String.length body'.
Proof.
  unfold match_here, Occurrence.
  destruct (strip_prefix "return [" s) as [s1|] eqn:P; [|discriminate].
  apply strip_prefix_Some in P. intros M body' rest' E.
  rewrite P in E. change (EmptyString ++ ?x) with x in E.
  change ("return [" ++ s1 = "return [" ++ (body' ++ "];" ++ rest')) in E.
  apply append_inv_head in E.
  now apply (match_lazy_body_shortest _ _ _ M body' rest').
Qed.

Lemma match_here_None (s : string) :
  match_here s = None ->
  forall body rest, ~ Occurrence s EmptyString body rest.
Proof.
  unfold match_here, Occurrence. intros M body rest E.
  change (s = "return [" ++ (body ++ "];" ++ rest)) in E.
  apply strip_prefix_Some in E. rewrite E in M.
  now apply (match_lazy_body_complete _ M body rest).
Qed.

(** An occurrence that does not start the text is an occurrence in its
    tail. *)
Lemma Occurrence_tail (c : ascii) (s pre body post : string) :
  Occurrence (String c s) pre body post ->
  pre = EmptyString
  \/ exists pre', pre = String c pre' /\ Occurrence s pre' body post.
Proof.
  unfold Occurrence. destruct pre as [|c' pre]; [now left|].
  simpl. intros [= <- E]. right. now exists pre.
Qed.

(** [exec] returns an occurrence of the pattern ... *)
Lemma exec_sound (s : string) (m : MatchResult) :
  exec s = Some m -> Occurrence s (before m) (capture m) (after m).
Proof.
  revert m. induction s as [|c s IH]; intros m; rewrite exec_eq;
    destruct (match_here _) as [[b r]|] eqn:H.
  - intros [= <-]. now apply match_here_Some.
  - discriminate.
  - intros [= <-]. now apply match_here_Some.
  - destruct (exec s) as [m'|]; [|discriminate].
    intros [= <-]. simpl. specialize (IH m' eq_refl).
    unfold Occurrence in *.
    change (String c s = String c (before m' ++ "return [" ++ capture m'
                                     ++ "];" ++ after m')).
    f_equal. exact IH.
Qed.

(** ... the leftmost one, and at that start the one with the shortest
    body ... *)
Lemma exec_first (s : string) (m : MatchResult) :
  exec s = Some m ->
  forall pre body post, Occurrence s pre body post ->
  String.length (before m) < String.length pre
  \/ (String.length (before m) = String.length pre
      /\ String.length (capture m) <= String.length body).
Proof.
  revert m. induction s as [|c s IH]; intros m; rewrite exec_eq;
    destruct (match_here _) as [[b r]|] eqn:H.
  - intros [= <-] pre body post O. simpl.
    destruct pre; [right | left; simpl; lia].
    split; [reflexivity|]. now apply (match_here_shortest _ _ _ H body post).
  - discriminate.
  - intros [= <-] pre body post O. simpl.
    destruct pre; [right | left; simpl; lia].
    split; [reflexivity|]. now apply (match_here_shortest _ _ _ H body post).
  - destruct (exec s) as [m'|]; [|discriminate].
    intros [= <-] pre body post O. simpl.
    destruct (Occurrence_tail _ _ _ _ _ O) as [->|(pre' & -> & O')].
    + now apply match_here_None with (body := body) (rest := post) in H.
    + simpl. destruct (IH m' eq_refl pre' body post O') as [L|[L1 L2]];
        [left; lia | right; split; [lia | exact L2]].
Qed.

(** ... and it fails only on a text without an occurrence. *)
Lemma exec_complete (s : string) :
  exec s = None -> forall pre body post, ~ Occurrence s pre body post.
Proof.
  induction s as [|c s IH]; rewrite exec_eq;
    destruct (match_here _) as [[b r]|] eqn:H; try discriminate.
  - intros _ pre body post O. destruct pre.
    + now apply (match_here_None _ H body post).
    + discriminate O.
  - destruct (exec s) as [m'|]; [discriminate|].
    intros _ pre body post O.
    destruct (Occurrence_tail _ _ _ _ _ O) as [->|(pre' & -> & O')].
    + now apply (match_here_None _ H body post).
    + now apply (IH eq_refl pre' body post).
Qed.

Lemma exec_FirstMatch (s : string) (m : MatchResult) :
  exec s = Some m -> FirstMatch s (before m) (capture m) (after m).
Proof.
  intros E. split; [now apply exec_sound | now apply exec_first].
Qed.

(** The first match is unique, so [exec] returns it whenever there is
    one. *)
Lemma FirstMatch_exec (s pre body post : string) :
  FirstMatch s pre body post -> exec s = Some (mkMatch pre body post).
Proof.
  intros [O F]. destruct (exec s) as [[p b r]|] eqn:E.
  - pose proof (exec_sound _ _ E) as O'. pose proof (exec_first _ _ E) as F'.
    simpl in O', F'.
    specialize (F _ _ _ O'). specialize (F' _ _ _ O).
    assert (L : String.length p = String.length pre) by lia.
    assert (L' : String.length b = String.length body) by lia.
    unfold Occurrence in O, O'. rewrite O in O'.
    destruct (append_eq_same_length _ _ _ _ O' (eq_sym L)) as [-> O1].
    apply append_inv_head in O1.
    destruct (append_eq_same_length _ _ _ _ O1 (eq_sym L')) as [-> O2].
    apply append_inv_head in O2. now subst.
  - exfalso. now apply (exec_complete _ E pre body post).
Qed.

End Pattern.

(** ** Replacement templates *)

Section Templates.

Import RegExp.

Variable m : MatchResult.
Variable captures : list string.

Lemma GetSubstitution_plain (c : ascii) (rest : string) :
  Ascii.eqb c "$" = false ->
  GetSubstitution m captures (String c rest)
  = String c (GetSubstitution m captures rest).
Proof. intros E. simpl. now rewrite E. Qed.

(** A dollar sign before a code unit that starts no substitution stands for
    itself, and the scan goes on at that code unit. *)
Lemma GetSubstitution_dollar (d : ascii) (rest1 : string) :
  substitution_unit d = false ->
  GetSubstitution m captures (String "$" (String d rest1))
  = String "$" (GetSubstitution m captures (String d rest1)).
Proof.
  intros H. unfold substitution_unit in H.
  repeat (apply orb_false_iff in H; destruct H as [H ?]).
  cbn [GetSubstitution].
  change (Ascii.eqb "$" "$") with true. cbn [negb].
  now rewrite H, H0, H1, H2, H3.
Qed.

(** A template without substitutions stands for itself. *)
Lemma GetSubstitution_inert (template : string) :
  inert template = true -> GetSubstitution m captures template = template.
Proof.
  induction template as [|c rest IH]; [reflexivity|].
  cbn [inert]. destruct (Ascii.eqb_spec c "$") as [->|N].
  - destruct rest as [|d rest1]; [reflexivity|].
    intros H. apply andb_true_iff in H as [S I].
    apply negb_true_iff in S.
    rewrite (GetSubstitution_dollar _ _ S). now rewrite IH.
  - intros I. rewrite GetSubstitution_plain; [now rewrite IH|].
    now apply Ascii.eqb_neq.
Qed.

End Templates.

(** ** Operation 2 *)

Section Rendering.

Lemma join_loop_concat (sep : string) (k : nat) (R : string)
  (elements : list string) :
  join_loop sep (S k) R elements =
  match elements with
  | [] => R
  | _ :: _ => R ++ sep ++ String.concat sep elements
  end.
Proof.
  revert k R. induction elements as [|e rest IH]; intros k R; [reflexivity|].
  cbn [join_loop Nat.eqb]. rewrite IH. destruct rest as [|e' rest].
  - simpl. now rewrite append_assoc.
  - cbn [String.concat]. now rewrite !append_assoc.
Qed.

(** [join] puts the separator between consecutive elements and nowhere
    else. *)
Lemma join_concat (elements : list string) (sep : string) :
  join elements sep = String.concat sep elements.
Proof.
  unfold join. destruct elements as [|e rest]; [reflexivity|].
  cbn [join_loop Nat.eqb]. rewrite join_loop_concat.
  destruct rest; simpl; [reflexivity | reflexivity].
Qed.

Lemma reorder_map {A B : Type} (f : A -> B) (idx : list nat) (l : list A) :
  map f (reorder idx l) = reorder idx (map f l).
Proof.
  unfold reorder. induction idx as [|i idx IH]; [reflexivity|].
  cbn [flat_map]. rewrite map_app, IH, nth_error_map.
  now destruct (nth_error l i).
Qed.

Lemma has_unit_append (u : ascii) (a b : string) :
  has_unit u (a ++ b) = has_unit u a || has_unit u b.
Proof.
  induction a as [|c a IH]; simpl; [reflexivity|].
  now rewrite IH, orb_assoc.
Qed.

Lemma has_unit_includes (u : ascii) (s : string) :
  has_unit u s = includes s (String u EmptyString).
Proof.
  induction s as [|c s IH]; [reflexivity|].
  cbn [has_unit includes]. unfold startsWith. cbn [strip_prefix].
  rewrite IH, (Ascii.eqb_sym c u). now destruct (Ascii.eqb u c).
Qed.

Lemma has_unit_false (u : ascii) (s : string) :
  ~ Contains s (String u EmptyString) -> has_unit u s = false.
Proof. intros H. rewrite has_unit_includes. now apply includes_false. Qed.

Lemma split_unit_single (u : ascii) (a : string) :
  has_unit u a = false -> split_unit u a = [a].
Proof.
  induction a as [|c a IH]; [reflexivity|].
  cbn [has_unit split_unit]. intros H.
  apply orb_false_iff in H as [-> H]. now rewrite (IH H).
Qed.

Lemma split_unit_append (u : ascii) (a b : string) :
  has_unit u a = false ->
  split_unit u (a ++ String u b) = a :: split_unit u b.
Proof.
  induction a as [|c a IH].
  - intros _. cbn. now rewrite Ascii.eqb_refl.
  - cbn [has_unit]. intros H. apply orb_false_iff in H as [E H].
    cbn [append split_unit]. now rewrite E, (IH H).
Qed.

(** Splitting a joined text at the separator gives the elements back, when
    no element contains the separator. *)
Lemma split_unit_concat (u : ascii) (elements : list string) :
  elements <> [] ->
  Forall (fun e => has_unit u e = false) elements ->
  split_unit u (String.concat (String u EmptyString) elements) = elements.
Proof.
  induction elements as [|e rest IH]; [congruence|].
  intros _ F. inversion F as [|? ? He Hrest]; subst.
  destruct rest as [|e' rest].
  - now apply split_unit_single.
  - cbn [String.concat].
    change (String u EmptyString ++ ?x) with (String u x).
    rewrite (split_unit_append _ _ _ He). f_equal.
    apply IH; [discriminate | assumption].
Qed.

Lemma classifier_range (column : Column) :
  In (getFakerMethodForColumn column) classifierRange.
Proof.
  unfold getFakerMethodForColumn.
  destruct (includes _ "email"); [simpl; tauto|].
  destruct (includes _ "name"); [simpl; tauto|].
  destruct (includes _ "phone"); [simpl; tauto|].
  destruct (includes _ "address"); [simpl; tauto|].
  unfold get_property.
  destruct (own_property typeMap _) as [v|] eqn:E.
  - destruct (typeMap_entries_truthy _ _ E) as [T _].
    unfold js_or. rewrite T. apply own_property_In in E.
    unfold typeMap in E. simpl in E.
    repeat (destruct E as [[= _ <-]|E]; [simpl; tauto|]).
    contradiction.
  - rewrite (inherited_property_lowercase _ (toLowerCase_no_upper _)).
    destruct (String.eqb _ "constructor"); [simpl; tauto|].
    destruct (String.eqb _ "__proto__"); simpl; tauto.
Qed.

(** No generator expression contains a line feed. *)
Lemma classifier_no_line_feed (column : Column) :
  has_unit LF_unit (ToString (getFakerMethodForColumn column)) = false.
Proof.
  pose proof (classifier_range column) as R.
  unfold classifierRange, fixedExpressions in R. simpl in R.
  repeat (destruct R as [<-|R]; [reflexivity|]). contradiction.
Qed.

Lemma renderColumn_no_line_feed (column : Column) :
  ~ Contains (name column) LF -> has_unit LF_unit (renderColumn column) = false.
Proof.
  intros H. apply has_unit_false in H. unfold renderColumn. cbv zeta.
  rewrite !has_unit_append, H, classifier_no_line_feed. reflexivity.
Qed.

End Rendering.

Section RenderedLines.

Lemma renderColumn_headed (column : Column) :
  exists rest, renderColumn column = String " " rest.
Proof. unfold renderColumn. cbv zeta. cbn [append]. now eexists. Qed.

Lemma rendered_lines (columns : list Column) :
  Forall (fun column => ~ Contains (name column) LF) columns ->
  text_lines (generateColumnDefinitions columns) = map renderColumn columns.
Proof.
  intros F. unfold generateColumnDefinitions. rewrite join_concat.
  destruct columns as [|c rest]; [reflexivity|].
  assert (S : split_unit LF_unit
                (String.concat LF (map renderColumn (c :: rest)))
              = map renderColumn (c :: rest)).
  { apply split_unit_concat; [discriminate|].
    apply Forall_map. revert F. apply Forall_impl.
    intros column. apply renderColumn_no_line_feed. }
  destruct (renderColumn_headed c) as (tail & H).
  destruct (String.concat LF (map renderColumn (c :: rest))) eqn:E.
  - exfalso. revert E. cbn [map String.concat]. rewrite H.
    destruct (map renderColumn rest); discriminate.
  - exact S.
Qed.

Lemma Forall_reorder {A : Type} (P : A -> Prop) (idx : list nat) (l : list A) :
  Forall P l -> Forall P (reorder idx l).
Proof.
  intros F. unfold reorder. induction idx as [|i idx IH]; [constructor|].
  cbn [flat_map]. apply Forall_app. split; [|exact IH].
  destruct (nth_error l i) as [x|] eqn:E; [|constructor].
  constructor; [|constructor].
  rewrite Forall_forall in F. apply F. now apply nth_error_In with i.
Qed.

End RenderedLines.

(** C3 as the claim words it: the column name is pasted into the line as it
    is, so one column whose name contains a line feed renders to two lines
    of text. *)
Lemma rendered_lines_counterexample :
  text_lines
    (generateColumnDefinitions [mkColumn ("a" ++ LF ++ "b") "text"])
  = ["            'a"; "b' => $this->faker->paragraph(),"]
  /\ List.length
       (text_lines
          (generateColumnDefinitions [mkColumn ("a" ++ LF ++ "b") "text"]))
     <> List.length [mkColumn ("a" ++ LF ++ "b") "text"].
Proof. split; [reflexivity | discriminate]. Qed.

(** C3, amended. For N columns none of whose names contains a line feed, the
    rendered text is exactly N lines joined by line feeds: its lines are the
    renderings of the columns, one per column and each of its column alone,
    in the order of the input; and picking the columns in another order
    picks the lines of the text in that order. *)
Theorem rendered_lines_in_order (columns : list Column) :
  Forall (fun column => ~ Contains (name column) LF) columns ->
  text_lines (generateColumnDefinitions columns) = map renderColumn columns
  /\ List.length (text_lines (generateColumnDefinitions columns))
     = List.length columns
  /\ generateColumnDefinitions columns
     = String.concat LF (text_lines (generateColumnDefinitions columns))
  /\ (forall i column,
        nth_error columns i = Some column ->
        nth_error (text_lines (generateColumnDefinitions columns)) i
        = Some (renderColumn column))
  /\ (forall idx,
        text_lines (generateColumnDefinitions (reorder idx columns))
        = reorder idx (text_lines (generateColumnDefinitions columns))).
Proof.
  intros F. rewrite (rendered_lines columns F).
  split; [reflexivity|].
  split; [apply length_map|].
  split; [apply join_concat|].
  split; [intros i column H; now rewrite nth_error_map, H|].
  intros idx. rewrite rendered_lines by now apply Forall_reorder.
  apply reorder_map.
Qed.

Lemma rendered_lines_in_order_witness :
  text_lines
    (generateColumnDefinitions
       [mkColumn "email" "varchar"; mkColumn "age" "integer"])
  = [ "            'email' => fake()->safeEmail(),";
      "            'age' => $this->faker->numberBetween(1, 1000)," ]
  /\ text_lines
       (generateColumnDefinitions
          (reorder [1; 0]
             [mkColumn "email" "varchar"; mkColumn "age" "integer"]))
     = [ "            'age' => $this->faker->numberBetween(1, 1000),";
         "            'email' => fake()->safeEmail()," ].
Proof.
  destruct (rendered_lines_in_order
              [mkColumn "email" "varchar"; mkColumn "age" "integer"])
    as (L & _ & _ & _ & R).
  - repeat constructor; apply includes_false; reflexivity.
  - split; [exact L|]. rewrite (R [1; 0]), L. reflexivity.
Defined.

(** ** Operation 3 *)

Section Splice.

Import RegExp.

Lemma no_occurrence_exec (content : string) :
  (forall pre body post, ~ Occurrence content pre body post) ->
  exec content = None.
Proof.
  intros H. destruct (exec content) as [m|] eqn:E; [|reflexivity].
  exfalso. exact (H _ _ _ (exec_sound _ _ E)).
Qed.

(** The text before and after the first match is kept, whatever the
    template. *)
Lemma splice_first_match (content definitions pre body post : string) :
  FirstMatch content pre body post ->
  spliceDefinitions content definitions
  = pre ++ GetSubstitution (mkMatch pre body post) [body]
             (replacementTemplate definitions) ++ post.
Proof.
  intros F. unfold spliceDefinitions, replace.
  now rewrite (FirstMatch_exec _ _ _ _ F).
Qed.

(** With a template without substitutions, the first match is replaced by
    the template itself. *)
Lemma splice_inert (content definitions pre body post : string) :
  FirstMatch content pre body post ->
  inert (replacementTemplate definitions) = true ->
  spliceDefinitions content definitions
  = pre ++ replacementTemplate definitions ++ post.
Proof.
  intros F I. rewrite (splice_first_match _ _ _ _ _ F).
  now rewrite GetSubstitution_inert.
Qed.

Lemma inert_append_plain (a b : string) :
  has_unit "$" a = false -> inert (a ++ b) = inert b.
Proof.
  induction a as [|c a IH]; [reflexivity|].
  cbn [has_unit append inert]. intros H.
  apply orb_false_iff in H as [-> H]. now apply IH.
Qed.

Lemma inert_append_expression (v : JsValue) (b : string) :
  In v classifierRange -> inert (ToString v ++ b) = inert b.
Proof.
  unfold classifierRange, fixedExpressions. simpl.
  intros R. repeat (destruct R as [<-|R]; [reflexivity|]). contradiction.
Qed.

Lemma inert_append_renderColumn (column : Column) (b : string) :
  ~ Contains (name column) "$" -> inert (renderColumn column ++ b) = inert b.
Proof.
  intros H. apply has_unit_false in H. unfold renderColumn. cbv zeta.
  rewrite !append_assoc.
  rewrite (inert_append_plain "            '") by reflexivity.
  rewrite (inert_append_plain (name column)) by exact H.
  rewrite (inert_append_plain "' => ") by reflexivity.
  rewrite inert_append_expression by apply classifier_range.
  reflexivity.
Qed.

Lemma inert_append_rendered (columns : list Column) (b : string) :
  Forall (fun column => ~ Contains (name column) "$") columns ->
  inert (String.concat LF (map renderColumn columns) ++ b) = inert b.
Proof.
  induction columns as [|c rest IH]; intros F; [reflexivity|].
  inversion F as [|? ? Hc Hrest]; subst.
  destruct rest as [|c' rest].
  - now apply inert_append_renderColumn.
  - cbn [map String.concat]. rewrite !append_assoc.
    rewrite (inert_append_renderColumn _ _ Hc).
    rewrite (inert_append_plain LF) by reflexivity.
    now apply IH.
Qed.

(** The template built from columns whose names have no dollar sign has no
    substitution: the dollar signs of the generator expressions are followed
    by a letter. *)
Lemma rendered_template_inert (columns : list Column) :
  Forall (fun column => ~ Contains (name column) "$") columns ->
  inert (replacementTemplate (generateColumnDefinitions columns)) = true.
Proof.
  intros F. unfold replacementTemplate, generateColumnDefinitions.
  rewrite join_concat.
  rewrite (inert_append_plain "return [") by reflexivity.
  rewrite (inert_append_plain LF) by reflexivity.
  rewrite (inert_append_rendered _ _ F). reflexivity.
Qed.

End Splice.

(** The splice of a block rendered from columns whose names have no dollar
    sign: the first occurrence of the pattern, with the shortest body, is
    replaced by the new array literal, and the text before and after it,
    later occurrences included, is kept. *)
Theorem splice_replaces_first_match (content : string) (columns : list Column)
  (pre body post : string) :
  FirstMatch content pre body post ->
  Forall (fun column => ~ Contains (name column) "$") columns ->
  spliceDefinitions content (generateColumnDefinitions columns)
  = pre ++ "return [" ++ LF ++ generateColumnDefinitions columns ++ LF
        ++ "        ];" ++ post.
Proof.
  intros F D. rewrite (splice_inert _ _ _ _ _ F).
  - unfold replacementTemplate. now rewrite !append_assoc.
  - now apply rendered_template_inert.
Qed.

Lemma splice_replaces_first_match_witness :
  spliceDefinitions
    ("<?php return [" ++ LF ++ "  //" ++ LF ++ "]; return [1]; ?>")
    (generateColumnDefinitions [mkColumn "age" "integer"])
  = "<?php return [" ++ LF
      ++ "            'age' => $this->faker->numberBetween(1, 1000),"
      ++ LF ++ "        ]; return [1]; ?>".
Proof.
  apply (splice_replaces_first_match
           ("<?php return [" ++ LF ++ "  //" ++ LF ++ "]; return [1]; ?>")
           [mkColumn "age" "integer"]
           "<?php " (LF ++ "  //" ++ LF) " return [1]; ?>").
  - apply (exec_FirstMatch _ (RegExp.mkMatch "<?php " (LF ++ "  //" ++ LF)
                                " return [1]; ?>")).
    reflexivity.
  - repeat constructor. apply includes_false. reflexivity.
Defined.

(** C4. The replacement is a string, and [replace] reads a dollar sign in it
    as the start of a substitution: a column named [price$] puts [$'] into
    the template, which stands for the text after the match, so the splice
    does not put the block into the file as it was rendered. *)
Theorem splice_expands_dollar_patterns :
  let content := "<?php return [];TAIL" in
  let definitions := generateColumnDefinitions [mkColumn "price$" "decimal"] in
  definitions = "            'price$' => $this->faker->randomFloat(2, 0, 1000),"
  /\ FirstMatch content "<?php " EmptyString "TAIL"
  /\ spliceDefinitions content definitions
     = "<?php return [" ++ LF
         ++ "            'priceTAIL => $this->faker->randomFloat(2, 0, 1000),"
         ++ LF ++ "        ];TAIL"
  /\ spliceDefinitions content definitions
     <> "<?php " ++ "return [" ++ LF ++ definitions ++ LF ++ "        ];"
          ++ "TAIL".
Proof.
  cbv zeta. split; [reflexivity|]. split.
  - apply (exec_FirstMatch _ (RegExp.mkMatch "<?php " EmptyString "TAIL")).
    reflexivity.
  - split; [reflexivity | discriminate].
Qed.

(** C5. On a text without an occurrence of the pattern the splice returns
    the text as it is, whatever the block, and reports nothing: the update of
    a factory file with such a content writes the content back as it was
    read, and settles as that write does. *)
Theorem splice_without_pattern_is_identity (content definitions : string) :
  (forall pre body post, ~ Occurrence content pre body post) ->
  spliceDefinitions content definitions = content
  /\ forall (io : FsPromises) (db : DatabaseEngine)
            (factoryPath tableName : string) (fs : FileSystem)
            (columns : list Column),
       readFile io factoryPath fs = Fulfilled content ->
       getColumns db tableName = Fulfilled columns ->
       updateFactoryContent io (Some db) factoryPath tableName fs
       = writeFile io factoryPath content fs.
Proof.
  intros H. pose proof (no_occurrence_exec _ H) as E.
  assert (S : forall d, spliceDefinitions content d = content).
  { intros d. unfold spliceDefinitions, RegExp.replace. now rewrite E. }
  split; [apply S|].
  intros io db factoryPath tableName fs columns R C.
  unfold updateFactoryContent, bind, reading.
  rewrite R, C. cbv zeta. now rewrite S.
Qed.

Lemma splice_without_pattern_is_identity_witness :
  spliceDefinitions "<?php return array(); return [1]"
    (generateColumnDefinitions [mkColumn "age" "integer"])
  = "<?php return array(); return [1]".
Proof.
  refine (proj1 (splice_without_pattern_is_identity
                   "<?php return array(); return [1]"
                   (generateColumnDefinitions [mkColumn "age" "integer"]) _)).
  apply exec_complete. reflexivity.
Defined.

(** C10. No columns render to the empty text, and splicing it into a text
    puts [return [], two line feeds, eight spaces and [];] in the place of
    the first match, with the rest of the text unchanged. *)
Theorem empty_block_splice :
  generateColumnDefinitions [] = EmptyString
  /\ forall content pre body post,
       FirstMatch content pre body post ->
       spliceDefinitions content (generateColumnDefinitions [])
       = pre ++ "return [" ++ LF ++ LF ++ "        ];" ++ post.
Proof.
  split; [reflexivity|]. intros content pre body post F.
  now rewrite (splice_inert _ _ _ _ _ F).
Qed.

Lemma empty_block_splice_witness :
  spliceDefinitions "function definition() { return [ 'a' => 1 ]; }"
    (generateColumnDefinitions [])
  = "function definition() { return [" ++ LF ++ LF ++ "        ]; }".
Proof.
  apply (proj2 empty_block_splice
           "function definition() { return [ 'a' => 1 ]; }"
           "function definition() { " " 'a' => 1 " " }").
  apply (exec_FirstMatch _ (RegExp.mkMatch "function definition() { "
                              " 'a' => 1 " " }")).
  reflexivity.
Defined.

(** ** The rendered lines *)

Section Lines.



End Lines.

(** C8 as the claim words it: the rendered line is not the bare
    [name => expression] text, it starts with the indentation of the
    template. *)
Lemma email_line_counterexample :
  generateColumnDefinitions [mkColumn "email" "varchar"]
  <> "'email' => fake()->safeEmail(),".
Proof. discriminate. Qed.

(** C8, amended. Rendering the single column named [email] of type
    [varchar] gives the line ['email' => fake()->safeEmail(),] behind twelve
    spaces of indentation. *)
Theorem email_line_scenario :
  generateColumnDefinitions [mkColumn "email" "varchar"]
  = "            " ++ "'email' => fake()->safeEmail(),".
Proof. reflexivity. Qed.




(** ** Further properties of the generator *)

(** The matcher finds the first occurrence of the pattern with the shortest
    array body when there is an occurrence, and fails exactly when there is
    none. *)
Theorem exec_finds_first_occurrence (content : string) :
  (forall pre body post,
     RegExp.exec content = Some (RegExp.mkMatch pre body post)
     <-> FirstMatch content pre body post)
  /\ (RegExp.exec content = None
      <-> forall pre body post, ~ Occurrence content pre body post).
Proof.
  split.
  - intros pre body post. split.
    + intros E. exact (exec_FirstMatch _ _ E).
    + apply FirstMatch_exec.
  - split; [apply exec_complete | apply no_occurrence_exec].
Qed.

(** For a column that no name heuristic matches and whose lowercased type is
    neither [constructor] nor [__proto__], the classifier returns the entry
    of the type table for the lowercased type, and the generic text
    expression when the table has no such key. *)
Theorem type_lookup_by_table (column : Column) :
  unmatched column ->
  toLowerCase (type column) <> "constructor" ->
  toLowerCase (type column) <> "__proto__" ->
  getFakerMethodForColumn column
  = match own_property typeMap (toLowerCase (type column)) with
    | Some entry => entry
    | None => JsStr "fake()->text()"
    end.
Proof.
  intros U C P.
  destruct (own_property typeMap _) as [v|] eqn:E.
  - now apply unmatched_type_entry.
  - apply unmatched_type_fallback; trivial. now apply own_property_None.
Qed.

Lemma type_lookup_by_table_witness :
  getFakerMethodForColumn (mkColumn "age" "integer")
    = JsStr "$this->faker->numberBetween(1, 1000)"
  /\ getFakerMethodForColumn (mkColumn "widget_count" "smallint")
     = JsStr "fake()->text()".
Proof.
  split.
  - apply (type_lookup_by_table (mkColumn "age" "integer"));
      [solve_unmatched | discriminate | discriminate].
  - apply (type_lookup_by_table (mkColumn "widget_count" "smallint"));
      [solve_unmatched | discriminate | discriminate].
Defined.

(** For every column whose lowercased type is neither [constructor] nor
    [__proto__], whatever its name, the classifier returns a string, and the
    string is one of the fixed expressions of the source. *)
Theorem classifier_returns_fixed_expression (column : Column) :
  toLowerCase (type column) <> "constructor" ->
  toLowerCase (type column) <> "__proto__" ->
  isString (getFakerMethodForColumn column) = true
  /\ exists expression,
       In expression fixedExpressions
       /\ getFakerMethodForColumn column = JsStr expression.
Proof.
  intros C P.
  destruct (classifier_fixed_expression column C P) as (e & I & E).
  split; [now rewrite E | now exists e].
Qed.

Lemma classifier_returns_fixed_expression_witness :
  isString (getFakerMethodForColumn (mkColumn "bio" "text")) = true
  /\ exists expression,
       In expression fixedExpressions
       /\ getFakerMethodForColumn (mkColumn "bio" "text") = JsStr expression.
Proof.
  apply (classifier_returns_fixed_expression (mkColumn "bio" "text"));
    discriminate.
Defined.

(** * The generator beyond the claims *)

(** ** Letter case *)

Section LetterCase.

Lemma toLowerCase_unit_idempotent (c : ascii) :
  toLowerCase_unit (toLowerCase_unit c) = toLowerCase_unit c.
Proof. destruct c as [[] [] [] [] [] [] [] []]; reflexivity. Qed.

Lemma toLowerCase_idempotent (s : string) :
  toLowerCase (toLowerCase s) = toLowerCase s.
Proof.
  induction s as [|c s IH]; simpl; [reflexivity|].
  now rewrite toLowerCase_unit_idempotent, IH.
Qed.

End LetterCase.

(** The classifier does not tell capital from small letters: lowercasing
    the name and the type of a column does not change the expression. *)
Theorem classifier_ignores_letter_case (column : Column) :
  getFakerMethodForColumn
    (mkColumn (toLowerCase (name column)) (toLowerCase (type column)))
  = getFakerMethodForColumn column.
Proof.
  unfold getFakerMethodForColumn. cbn [name type].
  now rewrite !toLowerCase_idempotent.
Qed.

(** ** Rendering and concatenation *)

Section RenderingAppend.

Lemma concat_append (sep : string) (a b : list string) :
  a <> [] -> b <> [] ->
  String.concat sep (a ++ b)%list
  = String.concat sep a ++ sep ++ String.concat sep b.
Proof.
  induction a as [|x a IH]; [congruence|]. intros _ B.
  destruct a as [|y a].
  - destruct b; [congruence | reflexivity].
  - change (String.concat sep ((x :: y :: a) ++ b)%list)
      with (x ++ sep ++ String.concat sep ((y :: a) ++ b)%list).
    rewrite IH by (trivial; discriminate).
    cbn [String.concat]. now rewrite !append_assoc.
Qed.

End RenderingAppend.

(** The block of two sequences of columns one after the other is the block
    of the first, a line feed, and the block of the second; the lines of the
    first are not changed by the columns that follow. *)
Theorem render_append (first second : list Column) :
  first <> [] -> second <> [] ->
  generateColumnDefinitions (first ++ second)%list
  = generateColumnDefinitions first ++ LF ++ generateColumnDefinitions second.
Proof.
  intros F S. unfold generateColumnDefinitions.
  rewrite !join_concat, map_app. apply concat_append.
  - destruct first; [congruence | discriminate].
  - destruct second; [congruence | discriminate].
Qed.

Lemma render_append_witness :
  generateColumnDefinitions
    ([mkColumn "email" "varchar"] ++ [mkColumn "age" "integer"])%list
  = generateColumnDefinitions [mkColumn "email" "varchar"] ++ LF
      ++ generateColumnDefinitions [mkColumn "age" "integer"].
Proof.
  apply (render_append [mkColumn "email" "varchar"] [mkColumn "age" "integer"]);
    discriminate.
Defined.

(** ** Splicing twice *)

Section SpliceTwice.

Import RegExp.

(** Two splits of one text: the longer head starts with the shorter. *)
Lemma append_split (a b c d : string) :
  a ++ b = c ++ d -> String.length a <= String.length c ->
  exists e, c = a ++ e /\ b = e ++ d.
Proof.
  revert c. induction a as [|x a IH]; intros c E L.
  - exists c. now split.
  - destruct c as [|y c]; [simpl in L; lia|].
    simpl in E, L. injection E as -> E.
    destruct (IH c E) as (e & -> & ->); [lia|]. now exists e.
Qed.

Lemma close_free_append (a b : string) :
  close_free a = true -> not_headed_by ";" b = true ->
  close_free (a ++ b) = close_free b.
Proof.
  intros A B. induction a as [|c a IH]; [reflexivity|].
  cbn [close_free append] in *. destruct (Ascii.eqb c "]").
  - destruct a as [|d a].
    + cbn [append]. destruct b as [|d b]; [reflexivity|].
      cbn [not_headed_by] in B. now rewrite B.
    + apply andb_true_iff in A as [D A]. cbn [append] in *.
      rewrite D. now apply IH.
  - now apply IH.
Qed.

Lemma close_free_append_plain (a b : string) :
  has_unit "]" a = false -> close_free (a ++ b) = close_free b.
Proof.
  induction a as [|c a IH]; [reflexivity|].
  cbn [has_unit append close_free]. intros H.
  apply orb_false_iff in H as [-> H]. now apply IH.
Qed.

(** [close_free] decides that [];] does not occur. *)
Lemma close_free_Contains (s : string) :
  ~ Contains s "];" -> close_free s = true.
Proof.
  induction s as [|c s IH]; [reflexivity|]. intros N.
  assert (N' : ~ Contains s "];").
  { intros (pre & post & ->). apply N. now exists (String c pre), post. }
  cbn [close_free]. destruct (Ascii.eqb_spec c "]") as [->|_]; [|now apply IH].
  destruct s as [|d s]; [reflexivity|].
  rewrite (IH N'), andb_true_r.
  destruct (Ascii.eqb_spec d ";") as [->|_]; [|reflexivity].
  exfalso. apply N. now exists EmptyString, s.
Qed.

(** The lazy body runs up to the [];] that ends a body without [];]. *)
Lemma match_lazy_body_close_free (body rest : string) :
  close_free (body ++ "]") = true ->
  match_lazy_body (body ++ "];" ++ rest) = Some (body, rest).
Proof.
  induction body as [|c body IH]; intros F; [reflexivity|].
  rewrite match_lazy_body_eq.
  assert (P : strip_prefix "];" (String c body ++ "];" ++ rest) = None).
  { cbn [append strip_prefix]. destruct (Ascii.eqb_spec "]" c) as [<-|_];
      [|reflexivity].
    cbn [append close_free] in F. change (Ascii.eqb "]" "]") with true in F.
    destruct body as [|d body]; [reflexivity|].
    cbn [append] in *. apply andb_true_iff in F as [D _].
    rewrite Ascii.eqb_sym. apply negb_true_iff in D. now rewrite D. }
  rewrite P.
  change (String c body ++ "];" ++ rest) with (String c (body ++ "];" ++ rest)).
  cbv iota. rewrite IH; [reflexivity|].
  cbn [append close_free] in F. destruct (Ascii.eqb c "]"); [|exact F].
  destruct (body ++ "]") eqn:E; [reflexivity|].
  now apply andb_true_iff in F as [_ F].
Qed.

(** Replacing the body of the first match by a body without [];] leaves the
    first match where it was. *)
Lemma exec_replaced_body (pre body post body' : string) :
  exec (pre ++ "return [" ++ body ++ "];" ++ post)
  = Some (mkMatch pre body post) ->
  close_free (body' ++ "]") = true ->
  exec (pre ++ "return [" ++ body' ++ "];" ++ post)
  = Some (mkMatch pre body' post).
Proof.
  intros E F. revert E. induction pre as [|c pre IH]; intros E.
  - rewrite exec_eq. unfold match_here.
    change (EmptyString ++ ?x) with x.
    change ("return [" ++ body' ++ "];" ++ post)
      with ("return [" ++ (body' ++ "];" ++ post)).
    rewrite strip_prefix_append.
    now rewrite (match_lazy_body_close_free _ _ F).
  - rewrite exec_eq in E. rewrite exec_eq.
    destruct (match_here (String c pre ++ "return [" ++ body ++ "];" ++ post))
      as [[b r]|] eqn:H; [injection E as E _ _; discriminate E|].
    assert (H' : match_here (String c pre ++ "return [" ++ body' ++ "];" ++ post)
                 = None).
    { unfold match_here in *.
      destruct (strip_prefix "return [" (String c pre ++ "return [" ++ body' ++ _))
        as [s1|] eqn:P; [|reflexivity].
      exfalso. apply strip_prefix_Some in P.
      change (String c pre ++ "return [" ++ body' ++ "];" ++ post)
        with (String c pre ++ "return [" ++ (body' ++ "];" ++ post)) in P.
      rewrite <- append_assoc in P. symmetry in P.
      apply append_split in P as (e & C & _);
        [|rewrite append_length; simpl; lia].
      change (String c pre ++ "return [" ++ body ++ "];" ++ post)
        with (String c pre ++ "return [" ++ (body ++ "];" ++ post)) in H.
      rewrite <- append_assoc, C, append_assoc, strip_prefix_append in H.
      now apply (match_lazy_body_complete _ H (e ++ body) post);
        rewrite append_assoc. }
    rewrite H'.
    change (String c pre ++ "return [" ++ body ++ "];" ++ post)
      with (String c (pre ++ "return [" ++ body ++ "];" ++ post)) in E.
    change (String c pre ++ "return [" ++ body' ++ "];" ++ post)
      with (String c (pre ++ "return [" ++ body' ++ "];" ++ post)).
    cbv iota in E. cbv iota.
    destruct (exec (pre ++ "return [" ++ body ++ "];" ++ post)) as [m|];
      [|discriminate E].
    injection E as E1 E2 E3.
    rewrite IH; [reflexivity|]. destruct m; simpl in *. now subst.
Qed.

Lemma close_free_rendered (columns : list Column) (b : string) :
  Forall (fun column => ~ Contains (name column) "];") columns ->
  not_headed_by ";" b = true ->
  close_free (String.concat LF (map renderColumn columns) ++ b)
  = close_free b.
Proof.
  intros F B. induction columns as [|c rest IH]; [reflexivity|].
  inversion F as [|? ? Hc Hrest]; subst.
  assert (R : forall b', not_headed_by ";" b' = true ->
                         close_free (renderColumn c ++ b') = close_free b').
  { intros b' B'. unfold renderColumn. cbv zeta. rewrite !append_assoc.
    rewrite (close_free_append_plain "            '") by reflexivity.
    rewrite (close_free_append (name c))
      by (trivial; now apply close_free_Contains).
    rewrite (close_free_append_plain "' => ") by reflexivity.
    rewrite (close_free_append (ToString _)); [reflexivity| |reflexivity].
    clear. pose proof (classifier_range c) as R.
    unfold classifierRange, fixedExpressions in R. simpl in R.
    repeat (destruct R as [<-|R]; [reflexivity|]). contradiction. }
  destruct rest as [|c' rest].
  - now apply R.
  - cbn [map String.concat]. rewrite !append_assoc.
    rewrite R by reflexivity.
    rewrite (close_free_append_plain LF) by reflexivity.
    now apply IH.
Qed.

End SpliceTwice.

(** Generating the factory content a second time changes nothing: for
    columns whose names contain neither a dollar sign nor [];], the splice of
    the block into a text into which the same block was spliced is that
    text. *)
Theorem splice_idempotent (content : string) (columns : list Column) :
  Forall (fun column => ~ Contains (name column) "$") columns ->
  Forall (fun column => ~ Contains (name column) "];") columns ->
  spliceDefinitions
    (spliceDefinitions content (generateColumnDefinitions columns))
    (generateColumnDefinitions columns)
  = spliceDefinitions content (generateColumnDefinitions columns).
Proof.
  intros D C. set (definitions := generateColumnDefinitions columns).
  pose proof (rendered_template_inert columns D) as I. fold definitions in I.
  destruct (RegExp.exec content) as [[pre body post]|] eqn:E.
  - pose proof (exec_sound _ _ E) as O. simpl in O. unfold Occurrence in O.
    assert (S : spliceDefinitions content definitions
                = pre ++ replacementTemplate definitions ++ post).
    { unfold spliceDefinitions, RegExp.replace. rewrite E.
      now rewrite GetSubstitution_inert by exact I. }
    rewrite S.
    assert (X : RegExp.exec (pre ++ replacementTemplate definitions ++ post)
                = Some (RegExp.mkMatch pre
                          (LF ++ definitions ++ LF ++ "        ") post)).
    { unfold replacementTemplate.
      replace (pre ++ ("return [" ++ LF ++ definitions ++ LF ++ "        ];")
                 ++ post)
        with (pre ++ "return [" ++ (LF ++ definitions ++ LF ++ "        ")
                ++ "];" ++ post)
        by (now rewrite !append_assoc).
      apply exec_replaced_body with (body := body); [now rewrite <- O|].
      rewrite !append_assoc.
      rewrite (close_free_append_plain LF) by reflexivity.
      unfold definitions, generateColumnDefinitions. rewrite join_concat.
      rewrite close_free_rendered; [reflexivity | exact C | reflexivity]. }
    unfold spliceDefinitions, RegExp.replace. rewrite X.
    now rewrite GetSubstitution_inert by exact I.
  - assert (S : spliceDefinitions content definitions = content).
    { unfold spliceDefinitions, RegExp.replace. now rewrite E. }
    now rewrite !S.
Qed.

Lemma splice_idempotent_witness :
  spliceDefinitions
    (spliceDefinitions sampleSkeleton
       (generateColumnDefinitions [mkColumn "items[]" "json"]))
    (generateColumnDefinitions [mkColumn "items[]" "json"])
  = spliceDefinitions sampleSkeleton
      (generateColumnDefinitions [mkColumn "items[]" "json"]).
Proof.
  apply (splice_idempotent sampleSkeleton [mkColumn "items[]" "json"]);
    repeat constructor; apply includes_false; reflexivity.
Defined.

(** ** [updateFactoryContent] *)

(** [updateFactoryContent] changes the files by one call at most, the write
    of the splice to the factory path, and makes that call only after the
    file was read and the columns were delivered.  Either it settles, and
    leaves the files, as that write does, fulfilled or rejected; or it is
    rejected with the files untouched, by the read of the factory file, by
    the missing database, or by [getColumns], with the error of that
    call. *)
Theorem updateFactoryContent_outcome (io : FsPromises)
  (database : option DatabaseEngine) (factoryPath tableName : string)
  (fs : FileSystem) :
  match updateFactoryContent io database factoryPath tableName fs with
  | (r, fs') =>
      (exists db content columns,
         database = Some db
         /\ readFile io factoryPath fs = Fulfilled content
         /\ getColumns db tableName = Fulfilled columns
         /\ writeFile io factoryPath
              (spliceDefinitions content (generateColumnDefinitions columns))
              fs
            = (r, fs'))
      \/ (fs' = fs
          /\ exists e,
               r = Rejected e
               /\ (readFile io factoryPath fs = Rejected e
                   \/ (database = None /\ e = nullDatabaseError)
                   \/ exists db, database = Some db
                                 /\ getColumns db tableName = Rejected e))
  end.
Proof.
  unfold updateFactoryContent, bind, reading.
  destruct (readFile io factoryPath fs) as [content|e] eqn:R.
  - destruct database as [db|].
    + destruct (getColumns db tableName) as [columns|e] eqn:C.
      * cbv zeta.
        destruct (writeFile io factoryPath _ fs) as [r fs'] eqn:W.
        left. now exists db, content, columns.
      * right. split; [reflexivity|]. exists e. split; [reflexivity|].
        right. right. now exists db.
    + right. split; [reflexivity|]. exists nullDatabaseError.
      split; [reflexivity|]. right. left. now split.
  - right. split; [reflexivity|]. exists e. split; [reflexivity|]. now left.
Qed.

(** ** The workflow *)

Section Trim.

Lemma trimStart_blank (s : string) :
  all_white_space s = true -> trimStart s = EmptyString.
Proof.
  induction s as [|c s IH]; [reflexivity|]. cbn [all_white_space trimStart].
  intros H. apply andb_true_iff in H as [-> H]. now apply IH.
Qed.

Lemma trimStart_all_white_space (s : string) :
  all_white_space (trimStart s) = true -> all_white_space s = true.
Proof.
  induction s as [|c s IH]; [reflexivity|]. cbn [trimStart].
  destruct (isWhiteSpace c) eqn:W; [|trivial].
  intros H. cbn [all_white_space]. now rewrite W, IH.
Qed.

Lemma trimEnd_empty (s : string) :
  trimEnd s = EmptyString -> all_white_space s = true.
Proof.
  induction s as [|c s IH]; [reflexivity|]. cbn [trimEnd all_white_space].
  destruct (trimEnd s); [|discriminate].
  destruct (isWhiteSpace c); [|discriminate]. intros _. now apply IH.
Qed.

(** The trimmed text is empty exactly for a text of white space. *)
Lemma trim_empty (s : string) :
  String.eqb (trim s) EmptyString = all_white_space s.
Proof.
  unfold trim. destruct (all_white_space s) eqn:W.
  - now rewrite (trimStart_blank _ W).
  - destruct (String.eqb_spec (trimEnd (trimStart s)) EmptyString) as [E|_];
      [|reflexivity].
    apply trimEnd_empty, trimStart_all_white_space in E. congruence.
Qed.

End Trim.

Section Workflow.

Variable host : Host.
Variable io : FsPromises.
Variable database : option DatabaseEngine.
Variables modelName modelFilePath : string.
Variable fs : FileSystem.

(** A model name that is empty or white space ends the workflow with one
    error message: the build tool is not run and no file is touched,
    whatever the editor and the database are. *)
Theorem generateFactory_blank_name :
  all_white_space modelName = true ->
  generateFactory host io database modelName modelFilePath fs
  = (Fulfilled tt, fs, [ErrorMessageShown "Please provide a model name." []]).
Proof.
  intros B. unfold generateFactory. now rewrite trim_empty, B.
Qed.

(** Without a database connection or without tables in the workspace, the
    user is told twice, by the error message of [isConnected] with its
    button and by the notification of the missing database; the build
    tool is not run and no file is touched. *)
Theorem generateFactory_not_connected :
  all_white_space modelName = false ->
  database = None \/ getWorkspaceTables host = [] ->
  generateFactory host io database modelName modelFilePath fs
  = (showMissingDatabaseNotification host, fs,
     [ErrorMessageShown notConnectedMessage ["Open DevDB"];
      MissingDatabaseNotificationShown]).
Proof.
  intros B D. unfold generateFactory. rewrite trim_empty, B.
  assert (C : isConnected host database fs
              = (Fulfilled false, fs,
                 [ErrorMessageShown notConnectedMessage ["Open DevDB"]])).
  { unfold isConnected. destruct D as [->| ->]; [reflexivity|].
    now destruct database. }
  unfold Task_bind at 1. rewrite C. cbn.
  now destruct (showMissingDatabaseNotification host).
Qed.

End Workflow.

Ltac unfold_workflow_in H :=
  cbv [generateFactory isConnected findFactoryFile Task_bind Task_ret emit
       call try_catch openAndShow artisan_run lift] in H.

Lemma has_id_true (action : option MessageItem) (id : string) :
  has_id action id = true ->
  exists item, action = Some item /\ item_id item = id.
Proof.
  destruct action as [item|]; [|discriminate]. cbn [has_id].
  intros E. apply String.eqb_eq in E. now exists item.
Qed.

(** The scrutinee on which the outcome of the workflow depends first. *)
Ltac head_scrutinee t :=
  lazymatch t with
  | match ?x with _ => _ end => head_scrutinee x
  | (match ?x with _ => _ end) _ => head_scrutinee x
  | _ => t
  end.

(** One case distinction of the workflow, in the order in which it runs. *)
Ltac workflow_case_in H :=
  lazymatch type of H with
  | ?t = _ =>
      let y := head_scrutinee t in
      lazymatch y with
      | t => fail
      | _ => destruct y eqn:?; cbv beta iota delta [negb] in H
      end
  end.

Section WorkflowGuards.

Variable host : Host.
Variable io : FsPromises.
Variable database : option DatabaseEngine.
Variables modelName modelFilePath : string.
Variable fs : FileSystem.

(** The build tool is run with one command only, [make:factory] with the
    name of the factory as its single argument, and only for a model name
    that is not blank, with a database and tables in the workspace, and,
    when a factory file was found, after the user chose to overwrite it. *)
Theorem generateFactory_artisan_guard
  (r : Promise unit) (fs' : FileSystem) (events : list Event)
  (command : string) (args : list string) :
  generateFactory host io database modelName modelFilePath fs = (r, fs', events) ->
  In (ArtisanCommandRun command args) events ->
  command = "make:factory"
  /\ args = [factoryNameOf modelName]
  /\ all_white_space modelName = false
  /\ database <> None
  /\ getWorkspaceTables host <> []
  /\ forall files existing,
       findFiles host (factoryPatternOf modelName) fs = Fulfilled files ->
       truthy (hd_error files) = Some existing ->
       exists item,
         showWarningMessage host (existsMessage modelName) existsItems
         = Fulfilled (Some item)
         /\ item_id item = "overwrite".
Proof.
  intros H I. unfold_workflow_in H. rewrite trim_empty in H.
  repeat workflow_case_in H.
  all: injection H as <- <- <-.
  all: cbn [app In] in I.
  all: repeat match type of I with _ \/ _ => destruct I as [I|I] end;
       try discriminate I; try contradiction.
  all: injection I as <- <-.
  all: match goal with
       | E : (_ || _)%bool = false |- _ =>
           apply orb_false_iff in E as [D T]
       end.
  all: repeat match goal with |- _ /\ _ => split end; trivial.
  all: try (intros ->; discriminate).
  all: try (intros E; rewrite E in T; discriminate).
  all: unfold factoryPatternOf, factoryNameOf, existsMessage, existsItems.
  all: intros files existing F TR.
  all: match goal with
       | E : findFiles _ _ _ = Fulfilled ?l |- _ =>
           rewrite E in F; injection F as <-
       end.
  all: change (hd_error ?l) with (match l with [] => None | x :: _ => Some x end)
         in TR.
  all: try congruence.
  all: match goal with
       | E : has_id _ "overwrite" = true |- _ =>
           apply has_id_true in E as (item & -> & O)
       end.
  all: now exists item.
Qed.

(** The files are changed by the build tool and by [updateFactoryContent]
    and by nothing else: after the workflow the files are as they were, or
    as [make:factory] left them, or as [updateFactoryContent] left them,
    fulfilled or rejected, when it was called on the first factory file
    found after [make:factory] and on the table of the model. *)
Theorem generateFactory_files
  (r : Promise unit) (fs' : FileSystem) (events : list Event) :
  generateFactory host io database modelName modelFilePath fs = (r, fs', events) ->
  fs' = fs
  \/ exists artisan ok fs1,
       ArtisanService_create host = Some artisan
       /\ runCommand artisan "make:factory" [factoryNameOf modelName] fs
          = (ok, fs1)
       /\ (fs' = fs1
           \/ exists factoryPath files tableName updated,
                ok = Fulfilled true
                /\ findFiles host (factoryPatternOf modelName) fs1
                   = Fulfilled (factoryPath :: files)
                /\ getTable host modelFilePath modelName fs1
                   = Fulfilled (Some tableName)
                /\ updateFactoryContent io database factoryPath tableName fs1
                   = (updated, fs')).
Proof.
  intros H. unfold_workflow_in H. rewrite trim_empty in H.
  repeat workflow_case_in H.
  all: injection H as <- <- <-.
  all: try (left; reflexivity).
  all: right; do 3 eexists; split; [reflexivity|]; split; [eassumption|].
  all: try (left; reflexivity).
  all: right.
  all: unfold factoryPatternOf, factoryNameOf.
  all: repeat match goal with
       | E : truthy ?v = Some ?s |- _ =>
           assert (v = Some s)
             by (revert E; unfold truthy; destruct v as [x|]; [|discriminate];
                 now destruct (String.eqb x EmptyString); intros [= ->]);
           clear E
       end.
  all: repeat match goal with
       | E : match ?l with [] => None | x :: _ => Some x end = Some _ |- _ =>
           destruct l; [discriminate E | injection E as ->]
       end.
  all: subst.
  all: do 4 eexists; repeat split; eassumption.
Qed.

End WorkflowGuards.

(** One step of the workflow along the path the known answers select. *)
Ltac workflow_step_in H :=
  lazymatch type of H with
  | ?t = _ =>
      let y := head_scrutinee t in
      lazymatch y with
      | t => fail
      | _ =>
          match goal with
          | E : y = _ |- _ => rewrite E in H
          end;
          cbv beta iota delta [negb] in H
      end
  end.

Lemma connected_condition (host : Host) (database : option DatabaseEngine) :
  database <> None -> getWorkspaceTables host <> [] ->
  (match database with Some _ => false | None => true end
   || (List.length (getWorkspaceTables host) =? 0)%nat)%bool = false.
Proof.
  intros D T. destruct database; [|congruence].
  now destruct (getWorkspaceTables host).
Qed.

Lemma truthy_Some (s : string) : s <> EmptyString -> truthy (Some s) = Some s.
Proof.
  intros N. unfold truthy. now destruct (String.eqb_spec s EmptyString).
Qed.

Lemma has_id_Some (item : MessageItem) (id : string) :
  item_id item = id -> has_id (Some item) id = true.
Proof. intros <-. apply String.eqb_refl. Qed.

Section ConnectedWorkflow.

Variable host : Host.
Variable io : FsPromises.
Variable database : option DatabaseEngine.
Variables modelName modelFilePath : string.
Variable fs : FileSystem.
Variable artisan : ArtisanService.

Hypothesis named : all_white_space modelName = false.
Hypothesis has_database : database <> None.
Hypothesis has_tables : getWorkspaceTables host <> [].
Hypothesis has_artisan : ArtisanService_create host = Some artisan.

(** With a factory file in the workspace and the answer [open] to the
    warning, the existing file is opened and shown; the build tool is not
    run and no file is changed. *)
Theorem generateFactory_open_existing
  (existing : string) (files : list string) (item : MessageItem) :
  findFiles host (factoryPatternOf modelName) fs = Fulfilled (existing :: files) ->
  existing <> EmptyString ->
  showWarningMessage host (existsMessage modelName) existsItems
  = Fulfilled (Some item) ->
  item_id item = "open" ->
  openTextDocument host existing fs = Fulfilled tt ->
  showTextDocument host existing = Fulfilled tt ->
  generateFactory host io database modelName modelFilePath fs
  = (Fulfilled tt, fs,
     [WarningMessageShown (existsMessage modelName) existsItems;
      TextDocumentOpened existing; TextDocumentShown existing]).
Proof.
  intros F N W I O S.
  pose proof (connected_condition host database has_database has_tables) as C.
  pose proof (truthy_Some _ N) as T. pose proof (has_id_Some _ _ I) as A.
  unfold factoryPatternOf, existsMessage, existsItems, factoryNameOf in *.
  destruct (generateFactory host io database modelName modelFilePath fs)
    as [[r fs'] events] eqn:H.
  unfold_workflow_in H. rewrite trim_empty in H.
  repeat workflow_step_in H.
  now injection H as <- <- <-.
Qed.

Section Created.

Variable fs1 : FileSystem.
Variable factoryPath tableName : string.
Variable files : list string.

Hypothesis no_factory :
  findFiles host (factoryPatternOf modelName) fs = Fulfilled [].
Hypothesis made :
  runCommand artisan "make:factory" [factoryNameOf modelName] fs
  = (Fulfilled true, fs1).
Hypothesis found :
  findFiles host (factoryPatternOf modelName) fs1
  = Fulfilled (factoryPath :: files).
Hypothesis found_path : factoryPath <> EmptyString.
Hypothesis table :
  getTable host modelFilePath modelName fs1 = Fulfilled (Some tableName).
Hypothesis table_name : tableName <> EmptyString.

Ltac run_workflow H :=
  pose proof (connected_condition host database has_database has_tables);
  pose proof (truthy_Some _ found_path);
  pose proof (truthy_Some _ table_name);
  assert (truthy None = None) by reflexivity;
  unfold factoryPatternOf, createdMessage, createdItems, factoryNameOf in *;
  destruct (generateFactory host io database modelName modelFilePath fs)
    as [[?r ?fs'] ?events] eqn:H;
  unfold_workflow_in H; rewrite trim_empty in H;
  repeat workflow_step_in H.

(** When the factory was made and the user does not ask to open it, the
    workflow ends with the files as [updateFactoryContent] left them and
    two events: the run of the build tool and the message that the factory
    was created. *)
Theorem generateFactory_created
  (fs2 : FileSystem) (answer : option MessageItem) :
  updateFactoryContent io database factoryPath tableName fs1
  = (Fulfilled tt, fs2) ->
  showInformationMessage host (createdMessage modelName) createdItems
  = Fulfilled answer ->
  has_id answer "open" = false ->
  generateFactory host io database modelName modelFilePath fs
  = (Fulfilled tt, fs2,
     [ArtisanCommandRun "make:factory" [factoryNameOf modelName];
      InformationMessageShown (createdMessage modelName) createdItems]).
Proof.
  intros U S A. run_workflow Run. now injection Run as <- <- <-.
Qed.


End Created.

(** A failure of [updateFactoryContent] does not fail the workflow, whether
    the factory is new or overwritten: the rejection is caught and shown as
    an error message that ends with the text of the error, the message of
    success is not shown, and the files stay as the failed update left
    them. *)
Theorem generateFactory_update_failed
  (shown : list Event) (fs1 fs2 : FileSystem) (factoryPath tableName : string)
  (files : list string) (e : string) :
  GoesOn host modelName fs shown ->
  runCommand artisan "make:factory" [factoryNameOf modelName] fs
  = (Fulfilled true, fs1) ->
  findFiles host (factoryPatternOf modelName) fs1
  = Fulfilled (factoryPath :: files) ->
  factoryPath <> EmptyString ->
  getTable host modelFilePath modelName fs1 = Fulfilled (Some tableName) ->
  tableName <> EmptyString ->
  updateFactoryContent io database factoryPath tableName fs1
  = (Rejected e, fs2) ->
  generateFactory host io database modelName modelFilePath fs
  = (Fulfilled tt, fs2,
     (shown
        ++ [ArtisanCommandRun "make:factory" [factoryNameOf modelName];
            ErrorMessageShown ("Failed to update factory content: " ++ e) []])%list).
Proof.
  intros G M F P T N U.
  pose proof (connected_condition host database has_database has_tables).
  pose proof (truthy_Some _ P). pose proof (truthy_Some _ N).
  destruct G as [found Ff Tf | found existing item Ff Tf W I].
  - change (hd_error found)
      with (match found with [] => None | x :: _ => Some x end) in Tf.
    unfold factoryPatternOf, factoryNameOf in *.
    destruct (generateFactory host io database modelName modelFilePath fs)
      as [[r fs'] events] eqn:Run.
    unfold_workflow_in Run. rewrite trim_empty in Run.
    repeat workflow_step_in Run. now injection Run as <- <- <-.
  - change (hd_error found)
      with (match found with [] => None | x :: _ => Some x end) in Tf.
    assert (has_id (Some item) "open" = false)
      by (cbn [has_id]; now rewrite I).
    assert (has_id (Some item) "overwrite" = true)
      by (cbn [has_id]; now rewrite I).
    unfold factoryPatternOf, existsMessage, existsItems, factoryNameOf in *.
    destruct (generateFactory host io database modelName modelFilePath fs)
      as [[r fs'] events] eqn:Run.
    unfold_workflow_in Run. rewrite trim_empty in Run.
    repeat workflow_step_in Run. now injection Run as <- <- <-.
Qed.

End ConnectedWorkflow.

(** ** The workflow in the sample workspace *)

Lemma generateFactory_blank_name_witness :
  generateFactory (sampleHost None) sampleFs (Some sampleDatabase)
    (String " " LF) "app/Models/User.php" emptyFileSystem
  = (Fulfilled tt, emptyFileSystem,
     [ErrorMessageShown "Please provide a model name." []]).
Proof.
  apply (generateFactory_blank_name (sampleHost None) sampleFs
           (Some sampleDatabase) (String " " LF) "app/Models/User.php"
           emptyFileSystem).
  reflexivity.
Defined.

Lemma generateFactory_not_connected_witness :
  generateFactory (sampleHost None) sampleFs None "User" "app/Models/User.php"
    emptyFileSystem
  = (Fulfilled tt, emptyFileSystem,
     [ErrorMessageShown notConnectedMessage ["Open DevDB"];
      MissingDatabaseNotificationShown]).
Proof.
  apply (generateFactory_not_connected (sampleHost None) sampleFs None "User"
           "app/Models/User.php" emptyFileSystem).
  - reflexivity.
  - left. reflexivity.
Defined.

Lemma generateFactory_artisan_guard_witness :
  all_white_space "User" = false
  /\ Some sampleDatabase <> None
  /\ getWorkspaceTables (sampleHost None) <> [].
Proof.
  destruct (generateFactory_artisan_guard (sampleHost None) sampleFs
              (Some sampleDatabase) "User" "app/Models/User.php"
              emptyFileSystem (fst (fst sampleOutcome))
              (snd (fst sampleOutcome)) (snd sampleOutcome)
              "make:factory" ["UserFactory"])
    as (_ & _ & B & D & T & _).
  - reflexivity.
  - left. reflexivity.
  - now repeat split.
Defined.

Lemma generateFactory_files_witness :
  snd (fst sampleOutcome) = emptyFileSystem
  \/ exists artisan ok fs1,
       ArtisanService_create (sampleHost None) = Some artisan
       /\ runCommand artisan "make:factory" [factoryNameOf "User"]
            emptyFileSystem
          = (ok, fs1)
       /\ (snd (fst sampleOutcome) = fs1
           \/ exists factoryPath files tableName updated,
                ok = Fulfilled true
                /\ findFiles (sampleHost None) (factoryPatternOf "User") fs1
                   = Fulfilled (factoryPath :: files)
                /\ getTable (sampleHost None) "app/Models/User.php" "User" fs1
                   = Fulfilled (Some tableName)
                /\ updateFactoryContent sampleFs (Some sampleDatabase)
                     factoryPath tableName fs1
                   = (updated, snd (fst sampleOutcome))).
Proof.
  apply (generateFactory_files (sampleHost None) sampleFs (Some sampleDatabase)
           "User" "app/Models/User.php" emptyFileSystem
           (fst (fst sampleOutcome)) (snd (fst sampleOutcome))
           (snd sampleOutcome)).
  reflexivity.
Defined.

Lemma generateFactory_open_existing_witness :
  generateFactory (sampleHost (Some (mkMessageItem "Open Existing" "open")))
    sampleFs (Some sampleDatabase) "User" "app/Models/User.php" sampleMade
  = (Fulfilled tt, sampleMade,
     [WarningMessageShown (existsMessage "User") existsItems;
      TextDocumentOpened "/app/database/factories/UserFactory.php";
      TextDocumentShown "/app/database/factories/UserFactory.php"]).
Proof.
  apply (generateFactory_open_existing
           (sampleHost (Some (mkMessageItem "Open Existing" "open")))
           sampleFs (Some sampleDatabase) "User" "app/Models/User.php"
           sampleMade sampleArtisan)
    with (files := []) (item := mkMessageItem "Open Existing" "open");
    try reflexivity; discriminate.
Defined.

Lemma generateFactory_created_witness :
  generateFactory (sampleHost None) sampleFs (Some sampleDatabase) "User"
    "app/Models/User.php" emptyFileSystem
  = (Fulfilled tt, snd (fst sampleOutcome),
     [ArtisanCommandRun "make:factory" [factoryNameOf "User"];
      InformationMessageShown (createdMessage "User") createdItems]).
Proof.
  apply (generateFactory_created (sampleHost None) sampleFs
           (Some sampleDatabase) "User" "app/Models/User.php" emptyFileSystem
           sampleArtisan)
    with (fs1 := sampleMade)
         (factoryPath := "/app/database/factories/UserFactory.php")
         (tableName := "users") (files := []) (answer := None);
    try reflexivity; discriminate.
Defined.

Lemma generateFactory_update_failed_witness :
  generateFactory (sampleHost (Some (mkMessageItem "Overwrite" "overwrite")))
    fullDiskFs (Some sampleDatabase) "User" "app/Models/User.php" sampleMade
  = (Fulfilled tt, sampleTruncated,
     [WarningMessageShown (existsMessage "User") existsItems;
      ArtisanCommandRun "make:factory" [factoryNameOf "User"];
      ErrorMessageShown
        "Failed to update factory content: Error: ENOSPC: no space left on device, write"
        []]).
Proof.
  apply (generateFactory_update_failed
           (sampleHost (Some (mkMessageItem "Overwrite" "overwrite")))
           fullDiskFs (Some sampleDatabase) "User" "app/Models/User.php"
           sampleMade sampleArtisan)
    with (shown := [WarningMessageShown (existsMessage "User") existsItems])
         (fs1 := snd (runCommand sampleArtisan "make:factory" ["UserFactory"]
                        sampleMade))
         (fs2 := sampleTruncated)
         (e := "Error: ENOSPC: no space left on device, write")
         (factoryPath := "/app/database/factories/UserFactory.php")
         (tableName := "users") (files := []).
  - reflexivity.
  - discriminate.
  - discriminate.
  - reflexivity.
  - apply (goes_on_overwrite _ _ _
             ["/app/database/factories/UserFactory.php"]
             "/app/database/factories/UserFactory.php"
             (mkMessageItem "Overwrite" "overwrite")); reflexivity.
  - reflexivity.
  - reflexivity.
  - discriminate.
  - reflexivity.
  - discriminate.
  - reflexivity.
Defined.


(** ** The first match and the text after it *)

Section Tail.

Import RegExp.

Lemma match_lazy_body_tail (body post post' : string) :
  match_lazy_body (body ++ "];" ++ post) = Some (body, post) ->
  match_lazy_body (body ++ "];" ++ post') = Some (body, post').
Proof.
  induction body as [|c body IH]; [reflexivity|].
  rewrite !match_lazy_body_eq.
  change (String c body ++ "];" ++ ?p) with (String c (body ++ "];" ++ p)).
  destruct (strip_prefix "];" (String c (body ++ "];" ++ post))) as [r|] eqn:P.
  - discriminate.
  - assert (P' : strip_prefix "];" (String c (body ++ "];" ++ post')) = None).
    { revert P. destruct body as [|d body]; cbn [append strip_prefix];
        (destruct (Ascii.eqb "]" c); [|reflexivity]).
      - intros _. reflexivity.
      - now destruct (Ascii.eqb ";" d). }
    rewrite P'. cbv iota.
    destruct (match_lazy_body (body ++ "];" ++ post)) as [[b r]|];
      [|discriminate].
    intros [= -> ->]. now rewrite IH.
Qed.

Lemma exec_tail (pre body post post' : string) :
  exec (pre ++ "return [" ++ body ++ "];" ++ post)
  = Some (mkMatch pre body post) ->
  exec (pre ++ "return [" ++ body ++ "];" ++ post')
  = Some (mkMatch pre body post').
Proof.
  induction pre as [|c pre IH]; intros E.
  - rewrite exec_eq in E. rewrite exec_eq. unfold match_here in *.
    change (EmptyString ++ ?x) with x in *.
    change ("return [" ++ body ++ "];" ++ ?p)
      with ("return [" ++ (body ++ "];" ++ p)) in *.
    rewrite strip_prefix_append in *.
    destruct (match_lazy_body (body ++ "];" ++ post)) as [[b r]|] eqn:M.
    + injection E as -> ->. now rewrite (match_lazy_body_tail _ _ post' M).
    + exfalso. now apply (match_lazy_body_complete _ M body post).
  - rewrite exec_eq in E. rewrite exec_eq.
    destruct (match_here (String c pre ++ "return [" ++ body ++ "];" ++ post))
      as [[b r]|] eqn:H; [injection E as E _ _; discriminate E|].
    assert (H' : match_here (String c pre ++ "return [" ++ body ++ "];" ++ post')
                 = None).
    { unfold match_here in *.
      destruct (strip_prefix "return [" (String c pre ++ "return [" ++ body ++ "];" ++ post'))
        as [s1|] eqn:P; [|reflexivity].
      exfalso. apply strip_prefix_Some in P.
      change (String c pre ++ "return [" ++ body ++ "];" ++ post')
        with (String c pre ++ "return [" ++ (body ++ "];" ++ post')) in P.
      rewrite <- append_assoc in P. symmetry in P.
      apply append_split in P as (e & C & _);
        [|rewrite append_length; simpl; lia].
      change (String c pre ++ "return [" ++ body ++ "];" ++ post)
        with (String c pre ++ "return [" ++ (body ++ "];" ++ post)) in H.
      rewrite <- append_assoc, C, append_assoc, strip_prefix_append in H.
      now apply (match_lazy_body_complete _ H (e ++ body) post);
        rewrite append_assoc. }
    rewrite H'.
    change (String c pre ++ "return [" ++ body ++ "];" ++ post)
      with (String c (pre ++ "return [" ++ body ++ "];" ++ post)) in E.
    change (String c pre ++ "return [" ++ body ++ "];" ++ post')
      with (String c (pre ++ "return [" ++ body ++ "];" ++ post')).
    cbv iota in E. cbv iota.
    destruct (exec (pre ++ "return [" ++ body ++ "];" ++ post)) as [m|];
      [|discriminate E].
    injection E as E1 E2 E3.
    rewrite IH; [reflexivity|]. destruct m; simpl in *. now subst.
Qed.

End Tail.

(** The first match is decided by the text up to its end: whatever text
    follows it, later array literals included, the same array literal is the
    first match. *)
Theorem first_match_ignores_tail (content pre body post post' : string) :
  FirstMatch content pre body post ->
  FirstMatch (pre ++ "return [" ++ body ++ "];" ++ post') pre body post'.
Proof.
  intros F. pose proof F as [O _]. unfold Occurrence in O.
  apply FirstMatch_exec in F. rewrite O in F.
  exact (exec_FirstMatch _ _ (exec_tail _ _ _ post' F)).
Qed.

Lemma first_match_ignores_tail_witness :
  FirstMatch ("a return [1]; b" ++ LF ++ "return [2];") "a " "1"
    (" b" ++ LF ++ "return [2];").
Proof.
  apply (first_match_ignores_tail "a return [1];" "a " "1" EmptyString
           (" b" ++ LF ++ "return [2];")).
  apply (exec_FirstMatch _ (RegExp.mkMatch "a " "1" EmptyString)).
  reflexivity.
Defined.

(** Whatever the block is, substitution patterns included, the splice keeps
    the text before the first match at the start of the result and the text
    after it at the end. *)
Theorem splice_keeps_surroundings (content definitions pre body post : string) :
  FirstMatch content pre body post ->
  exists replacement,
    spliceDefinitions content definitions = pre ++ replacement ++ post.
Proof.
  intros F. eexists. exact (splice_first_match _ definitions _ _ _ F).
Qed.

Lemma splice_keeps_surroundings_witness :
  exists replacement,
    spliceDefinitions "<?php return [];TAIL"
      (generateColumnDefinitions [mkColumn "price$" "decimal"])
    = "<?php " ++ replacement ++ "TAIL".
Proof.
  apply (splice_keeps_surroundings "<?php return [];TAIL"
           (generateColumnDefinitions [mkColumn "price$" "decimal"])
           "<?php " EmptyString "TAIL").
  apply (exec_FirstMatch _ (RegExp.mkMatch "<?php " EmptyString "TAIL")).
  reflexivity.
Defined.
